(** * Kirby panel: the [Feature] state container

    A shallow embedding of the feature object that dialogs, drawers and
    views are built from: its reactive state, its listener map and the
    methods [addEventListeners], [emit], [hasEventListener],
    [hasSubmitter], [load], [open], [post], [refresh], [reload], [set]
    and [url].

    JavaScript values are a small inductive type; objects are finite maps
    from property names to values.  Every method runs in a state monad
    with exceptions over a [World]: the feature's own fields, the rest of
    the panel (abstract), and a trace of the calls the method makes to
    its collaborators ([panel.open], [panel.post], [panel.get],
    [panel.notification.error]) and to listener functions. *)

From stdpp Require Import gmap strings list fin_maps.
From Stdlib Require Import ZArith.

#[local] Set Warnings "-register-all".
#[local] Open Scope string_scope.
#[local] Open Scope list_scope.

(** ** JavaScript values *)

(** The constructor of an object, as far as the code can tell them apart:
    plain records, arrays, [URL] instances and the two kinds of errors. *)
Inductive class := cls_Object | cls_Array | cls_URL | cls_Error | cls_TypeError.

(** Function values.  [dummy_listener] is the arrow function [() => {}]
    that [emit] returns; [method name] is the method [name] of
    [Object.prototype], which every plain object inherits; every other
    function is known by a name and gets its behaviour from the
    environment. *)
Inductive fname := dummy_listener | named (id : string) | method (name : string).

(** Numbers are kept to the integers; objects have no identity of their
    own and functions carry no properties. *)
Inductive value :=
| VUndefined
| VNull
| VBool (b : bool)
| VNum (n : Z)
| VStr (s : string)
| VFun (f : fname)
| VObj (c : class) (fields : gmap string value).

#[global] Instance class_eq_dec : EqDecision class.
Proof. solve_decision. Defined.

#[global] Instance fname_eq_dec : EqDecision fname.
Proof. solve_decision. Defined.

(** [typeof v] *)
Definition typeof (v : value) : string :=
  match v with
  | VUndefined => "undefined"
  | VNull => "object"
  | VBool _ => "boolean"
  | VNum _ => "number"
  | VStr _ => "string"
  | VFun _ => "function"
  | VObj _ _ => "object"
  end.

(** [typeof v === "function"] *)
Definition is_function (v : value) : bool := bool_decide (typeof v = "function").

(** [typeof v === "string"] *)
Definition is_string (v : value) : bool := bool_decide (typeof v = "string").

(** Truthiness, as tested by [!v] and [if (v)]. *)
Definition truthy (v : value) : bool :=
  match v with
  | VUndefined | VNull => false
  | VBool b => b
  | VNum n => negb (n =? 0)%Z
  | VStr s => negb (bool_decide (s = ""))
  | VFun _ | VObj _ _ => true
  end.

(** [v === undefined || v === null], the test behind [??] and [?.]. *)
Definition nullish (v : value) : bool :=
  match v with
  | VUndefined | VNull => true
  | _ => false
  end.

(** [a ?? b] *)
Definition coalesce (a b : value) : value := if nullish a then b else a.

(** [a === b].  Primitives compare by value and functions by name; two
    objects are never the same object here, as for the records decoded
    from a backend response. *)
Definition strict_eq (a b : value) : bool :=
  match a, b with
  | VUndefined, VUndefined => true
  | VNull, VNull => true
  | VBool x, VBool y => bool_decide (x = y)
  | VNum x, VNum y => (x =? y)%Z
  | VStr x, VStr y => bool_decide (x = y)
  | VFun f, VFun g => bool_decide (f = g)
  | _, _ => false
  end.

(** The own properties of a value; primitives and functions have none
    that this code reads. *)
Definition own_fields (v : value) : gmap string value :=
  match v with
  | VObj _ m => m
  | _ => ∅
  end.

(** [v[k]] on a value that is not null or undefined: a missing property
    reads as [undefined].  The property names read in this file ("on",
    "url", "value", "component", "props" and "$" + key) are none of the
    names a prototype provides. *)
Definition prop (v : value) (k : string) : value :=
  default VUndefined (own_fields v !! k).

(** [v?.[k]] *)
Definition prop_opt (v : value) (k : string) : value :=
  if nullish v then VUndefined else prop v k.

(** A plain record literal [{ k1: v1, ... }]. *)
Definition record (l : list (string * value)) : value :=
  VObj cls_Object (list_to_map l).

(** [new Error(message)] *)
Definition Error (message : string) : value :=
  VObj cls_Error {[ "message" := VStr message ]}.

(** The [TypeError] the engine raises; its message is engine specific
    and left out. *)
Definition TypeError : value := VObj cls_TypeError ∅.

(** Modelled from the spec: [isObject] of "@/helpers/object" is not part
    of the sources at hand; the spec has [addEventListeners] ignore every
    "non-mapping input", so a value is an object here exactly when it is
    a plain record. *)
Definition isObject (v : value) : bool :=
  match v with
  | VObj cls_Object _ => true
  | _ => false
  end.

(** The methods of [Object.prototype].  Its one other property,
    [__proto__], is an accessor that gives the prototype itself, an
    object and no function. *)
Definition Object_prototype : list string :=
  [ "constructor"; "hasOwnProperty"; "isPrototypeOf"; "propertyIsEnumerable";
    "toLocaleString"; "toString"; "valueOf";
    "__defineGetter__"; "__defineSetter__"; "__lookupGetter__"; "__lookupSetter__" ].

(** What a plain object without an entry of its own gives under a
    name: the inherited method, or [undefined]; [__proto__] reads as
    [undefined] here, which [typeof] tells from a function just as it
    does the prototype object. *)
Definition inherited (name : string) : value :=
  if bool_decide (name ∈ Object_prototype) then VFun (method name) else VUndefined.

(** [o[name]] for a plain object with the entries [m]: its own entry
    first, the prototype's next. *)
Definition lookup_plain (m : gmap string value) (name : string) : value :=
  from_option id (inherited name) (m !! name).

(** ** The feature's state *)

Record State := mkState {
  component : value;
  isLoading : value;
  on : gmap string value;
  path : value;
  props : value;
  query : value;
  referrer : value;
  timestamp : value
}.

(** [defaults()] *)
Definition defaults : State :=
  {| component := VNull;
     isLoading := VBool false;
     on := ∅;
     path := VNull;
     props := VObj cls_Object ∅;
     query := VObj cls_Object ∅;
     referrer := VNull;
     timestamp := VNull |}.

(** [this.isLoading = v] *)
Definition with_isLoading (v : value) (s : State) : State :=
  mkState (component s) v (on s) (path s) (props s) (query s) (referrer s) (timestamp s).

(** [this.on = m] *)
Definition with_on (m : gmap string value) (s : State) : State :=
  mkState (component s) (isLoading s) m (path s) (props s) (query s) (referrer s) (timestamp s).

(** [this.props = v] *)
Definition with_props (v : value) (s : State) : State :=
  mkState (component s) (isLoading s) (on s) (path s) v (query s) (referrer s) (timestamp s).

(** ** Results, traces and the monad of methods *)

Inductive result (A : Type) :=
| Ok (a : A)
| Throw (e : value).
Arguments Ok {A} a.
Arguments Throw {A} e.

(** The calls a method makes to the outside. *)
Inductive Event :=
| EvCall (f : fname) (args : list value)
| EvPanelOpen (url options : value)
| EvPanelPost (path value options : value)
| EvPanelGet (url options : value)
| EvNotificationError (error : value).

(** What a collaborator or a listener may do: return or throw, and change
    the feature and the rest of the panel on the way.  Whatever other
    tasks do while a method is suspended on an [await] is part of the
    awaited call's effect. *)
Definition Effect (X : Type) : Type := State * X → result value * (State * X).

(** The [panel] singleton as the feature uses it. *)
Record Panel (X : Type) := mkPanel {
  panel_open : value → value → Effect X;
  panel_post : value → value → value → Effect X;
  panel_get : value → value → Effect X;
  panel_url : value → value → result value;
  panel_notification_error : value → Effect X
}.
Arguments panel_open {X}.
Arguments panel_post {X}.
Arguments panel_get {X}.
Arguments panel_url {X}.
Arguments panel_notification_error {X}.

Record World (X : Type) := mkWorld {
  feature : State;
  outside : X;
  trace : list Event
}.
Arguments mkWorld {X}.
Arguments feature {X}.
Arguments outside {X}.
Arguments trace {X}.

Definition M (X A : Type) : Type := World X → result A * World X.

#[global] Instance M_ret {X} : MRet (M X) := λ A a w, (Ok a, w).

#[global] Instance M_bind {X} : MBind (M X) := λ A B f m w,
  match m w with
  | (Ok a, w') => f a w'
  | (Throw e, w') => (Throw e, w')
  end.

Definition throw {X A} (e : value) : M X A := λ w, (Throw e, w).

(** Read [this]. *)
Definition this {X} : M X State := λ w, (Ok (feature w), w).

(** Assign to fields of [this]. *)
Definition assign {X} (f : State → State) : M X unit :=
  λ w, (Ok (), mkWorld (f (feature w)) (outside w) (trace w)).

(** Call out: the call is appended to the trace, then takes effect. *)
Definition external {X} (ev : Event) (f : Effect X) : M X value := λ w,
  let '(r, (s, x)) := f (feature w, outside w) in
  (r, mkWorld s x (trace w ++ [ev])).

(** [try { body } catch (error) { handler error }] *)
Definition try_catch {X A} (body : M X A) (handler : value → M X A) : M X A := λ w,
  match body w with
  | (Throw e, w') => handler e w'
  | r => r
  end.

(** [try { body } finally { cleanup }] *)
Definition try_finally {X A} (body : M X A) (cleanup : M X unit) : M X A := λ w,
  let '(r, w') := body w in
  match cleanup w' with
  | (Ok _, w'') => (r, w'')
  | (Throw e, w'') => (Throw e, w'')
  end.

(** A call that is started but neither awaited nor returned: its result
    and its rejection never reach the caller.  The detached call is run
    to its end here, so the world after it is the one found once the
    call has settled. *)
Definition detached {X A} (m : M X A) : M X unit := λ w, (Ok (), (m w).2).

(** [v.k] for a [v] that may be null or undefined. *)
Definition member {X} (v : value) (k : string) : M X value :=
  if nullish v then throw TypeError else mret (prop v k).

(** [v.k = x] in strict mode, giving the object written to. *)
Definition set_member {X} (v : value) (k : string) (x : value) : M X value :=
  match v with
  | VObj c m => mret (VObj c (<[k := x]> m))
  | VFun f => mret (VFun f)
  | _ => throw TypeError
  end.

(** A parameter with the default [= {}]. *)
Definition or_empty (v : value) : value :=
  match v with
  | VUndefined => VObj cls_Object ∅
  | _ => v
  end.

(** ** Listener maps and strings *)

(** The callable entries of a record. *)
Definition callable (m : gmap string value) : gmap string value :=
  filter (λ kv, is_function kv.2 = true) m.

(** The listeners a value supplies: the callable entries of a plain
    record, none for anything else. *)
Definition supplied (v : value) : gmap string value :=
  match v with
  | VObj cls_Object l => callable l
  | _ => ∅
  end.

(** Every stored listener is a function. *)
Definition listeners_callable (m : gmap string value) : Prop :=
  map_Forall (λ _ v, is_function v = true) m.

(** An effect that leaves the listener map with functions only when it
    finds it so: a collaborator or a listener that writes to the
    feature's listeners through the feature's own methods. *)
Definition keeps_listeners_callable {X} (f : Effect X) : Prop :=
  ∀ e, listeners_callable (on e.1) → listeners_callable (on (f e).2.1).

(** Substring containment. *)
Definition contains (needle hay : string) : Prop :=
  ∃ before after, hay = before +:+ needle +:+ after.

(** ** The feature *)

Section Feature.

(** The rest of the panel, the [panel] singleton, the behaviour of the
    functions that can be registered as listeners, and the key the
    feature was created with, which is what the module's [key()]
    returns. *)
Context {X : Type}.
Variable panel : Panel X.
Variable apply : string → list value → Effect X.
Variable key : string.

(** Whether a string parses as a URL against the current location;
    the parser belongs to the browser. *)
Variable parses_as_url : string → bool.

(** Modelled from the spec: [isUrl] of "@/helpers/url" is not part of
    the sources at hand; the spec speaks of "a URL-like value" and the
    parameter of [open] is documented as [String|URL|Object], so [URL]
    instances and the strings that parse as a URL are URL-like. *)
Definition isUrl (v : value) : bool :=
  match v with
  | VObj cls_URL _ => true
  | VStr s => parses_as_url s
  | _ => false
  end.

(** Modelled from the spec: the base module ("./module.js") is not part
    of the sources at hand.  Its [state()] "returns a read-only
    snapshot (mapping of all current fields)". *)
Definition state_of (s : State) : value :=
  record [ ("component", component s);
           ("isLoading", isLoading s);
           ("on", VObj cls_Object (on s));
           ("path", path s);
           ("props", props s);
           ("query", query s);
           ("referrer", referrer s);
           ("timestamp", timestamp s) ].

Definition state : M X value := s ← this; mret (state_of s).

(** Modelled from the spec: the base [set(input)] of "./module.js"
    "merges it over the existing state shallow-field-by-field,
    replacing the default for any key present in input; leaves keys
    absent from input untouched", with "no error conditions".  The [on]
    field holds a map: what the merge writes to it is replaced by the
    feature's own [set] in the same step, before anything can read
    it. *)
Definition merged (input : gmap string value) (k : string) (old : value) : value :=
  default old (input !! k).

Definition merge (input : value) (s : State) : State :=
  let i := own_fields input in
  {| component := merged i "component" (component s);
     isLoading := merged i "isLoading" (isLoading s);
     on := from_option own_fields (on s) (i !! "on");
     path := merged i "path" (path s);
     props := merged i "props" (props s);
     query := merged i "query" (query s);
     referrer := merged i "referrer" (referrer s);
     timestamp := merged i "timestamp" (timestamp s) |}.

Definition Module_set (input : value) : M X value :=
  assign (merge input);;
  state.

(** A method of [Object.prototype] called on the listener map, as in
    [this.on[event](...args)].  On a plain object without a
    [Symbol.toStringTag], [toString] gives "[object Object]" and
    [valueOf] the object itself; [__defineGetter__] and
    [__defineSetter__] throw a [TypeError] when their second argument is
    no function.  What else the methods do (accessors, wrapper objects,
    conversion of a value to a property key) is left to the environment,
    which knows them by their qualified name. *)
Definition Object_prototype_method (name : string) (args : list value) : Effect X :=
  λ e,
    if bool_decide (name = "toString") then (Ok (VStr "[object Object]"), e)
    else if bool_decide (name = "valueOf") then (Ok (VObj cls_Object (on e.1)), e)
    else if bool_decide (name ∈ ["__defineGetter__"; "__defineSetter__"])
            && negb (is_function (default VUndefined (args !! 1%nat)))
    then (Throw TypeError, e)
    else apply ("Object.prototype." +:+ name) args e.

(** What a function value does when it is called. *)
Definition behaviour (f : fname) (args : list value) : Effect X :=
  match f with
  | dummy_listener => λ e, (Ok VUndefined, e)
  | named id => apply id args
  | method name => Object_prototype_method name args
  end.

(** Calling a function value with arguments. *)
Definition invoke (f : fname) (args : list value) : M X value :=
  external (EvCall f args) (behaviour f args).

(** [v(...args)] *)
Definition call (v : value) (args : list value) : M X value :=
  match v with
  | VFun f => invoke f args
  | _ => throw TypeError
  end.

(** The loop [for (const event in listeners)] of [addEventListeners]:
    a callable entry is stored under its name, any other is passed
    over.  Property names are distinct, so the order of the visit does
    not show in the result.  A function under the own name "__proto__"
    is kept as an entry like any other; an engine makes it the
    prototype of the listener map instead, where [this.on["__proto__"]]
    finds it all the same. *)
Definition register (listeners registered : gmap string value) : gmap string value :=
  map_fold (λ event listener acc,
              if is_function listener then <[event := listener]> acc else acc)
           registered listeners.

Definition addEventListeners (listeners : value) : M X value :=
  if negb (isObject listeners) then mret VUndefined
  else
    assign (λ s, with_on (register (own_fields listeners) (on s)) s);;
    mret VUndefined.

(** [typeof this.on[event] === "function"]: the listener map is a plain
    object, so a name without an entry is looked up in
    [Object.prototype]. *)
Definition hasEventListener (event : string) (s : State) : bool :=
  is_function (lookup_plain (on s) event).

Definition emit (event : string) (args : list value) : M X value :=
  s ← this;
  if hasEventListener event s
  then call (lookup_plain (on s) event) args
  else mret (VFun dummy_listener).

Definition hasSubmitter (s : State) : bool :=
  if hasEventListener "submit" s then true
  else if is_string (path s) then true
  else false.

Definition load (url options : value) : M X value :=
  let options := or_empty options in
  assign (with_isLoading (VBool true));;
  external (EvPanelOpen url options) (panel_open panel url options);;
  assign (with_isLoading (VBool false));;
  listeners ← member options "on";
  addEventListeners listeners;;
  state.

(** The feature's own [set], overriding the module's. *)
Definition set (input : value) : M X value :=
  Module_set input;;
  assign (with_on ∅);;
  listeners ← member input "on";
  addEventListeners (coalesce listeners (VObj cls_Object ∅));;
  state.

(** The wrapper at the head of [open]: a function given as options is
    the submit listener. *)
Definition normalize (options : value) : value :=
  if is_function options
  then record [ ("on", record [ ("submit", options) ]) ]
  else options.

Definition open (target options : value) : M X value :=
  let options := normalize (or_empty options) in
  if isUrl target then load target options
  else
    set target;;
    listeners ← member options "on";
    addEventListeners listeners;;
    emit "open" [target; options];;
    state.

Definition url (s : State) : result value := panel_url panel (path s) (query s).

Definition lift {A} (r : result A) : M X A :=
  match r with
  | Ok a => mret a
  | Throw e => throw e
  end.

Definition post (val options : value) : M X value :=
  let options := or_empty options in
  s ← this;
  if negb (truthy (path s)) then
    throw (Error ("The " +:+ key +:+ " cannot be posted"))
  else
    assign (with_isLoading (VBool true));;
    s ← this;
    let val := coalesce (coalesce val (prop_opt (props s) "value")) (VObj cls_Object ∅) in
    try_finally
      (try_catch
         (external (EvPanelPost (path s) val options)
                   (panel_post panel (path s) val options))
         (λ error,
            external (EvNotificationError error)
                     (panel_notification_error panel error);;
            mret (VBool false)))
      (assign (with_isLoading (VBool false))).

Definition refresh (options : value) : M X value :=
  let options := or_empty options in
  given ← member options "url";
  s ← this;
  target ← (if nullish given then lift (url s) else mret given);
  options ← set_member options "url" target;
  response ← external (EvPanelGet target options) (panel_get panel target options);
  state' ← member response ("$" +:+ key);
  s ← this;
  if negb (truthy state') || negb (strict_eq (prop state' "component") (component s))
  then mret VUndefined
  else
    assign (with_props (prop state' "props"));;
    state.

Definition reload (options : value) : M X value :=
  let options := or_empty options in
  s ← this;
  if negb (truthy (path s)) then mret (VBool false)
  else
    target ← lift (url s);
    detached (open target options);;
    mret VUndefined.

(** The calls that write to the listener map, and a caller that makes
    them one after the other, going on after a call that throws. *)
Inductive Call :=
| CallAddEventListeners (listeners : value)
| CallSet (input : value)
| CallOpen (target options : value)
| CallLoad (url options : value).

Definition perform (c : Call) : M X value :=
  match c with
  | CallAddEventListeners listeners => addEventListeners listeners
  | CallSet input => set input
  | CallOpen target options => open target options
  | CallLoad url options => load url options
  end.

Fixpoint perform_all (cs : list Call) (w : World X) : World X :=
  match cs with
  | [] => w
  | c :: cs => perform_all cs (perform c w).2
  end.

End Feature.

(** ** Concrete worlds for the examples *)

(** A panel without a backend: every call returns [undefined] and leaves
    the feature alone; [panel.url] wraps the path in a [URL]. *)
Definition quiet : Effect unit := λ e, (Ok VUndefined, e).

Definition idle_panel : Panel unit :=
  {| panel_open := λ _ _, quiet;
     panel_post := λ _ _ _, quiet;
     panel_get := λ _ _, quiet;
     panel_url := λ p _, Ok (VObj cls_URL {[ "pathname" := p ]});
     panel_notification_error := λ _, quiet |}.

(** A panel whose backend is down: [panel.post] throws. *)
Definition failing_panel : Panel unit :=
  {| panel_open := λ _ _, quiet;
     panel_post := λ _ _ _ e, (Throw (Error "offline"), e);
     panel_get := λ _ _, quiet;
     panel_url := λ p _, Ok (VObj cls_URL {[ "pathname" := p ]});
     panel_notification_error := λ _, quiet |}.

(** A panel whose backend answers every [panel.get] with the same
    response. *)
Definition answering_panel (response : value) : Panel unit :=
  {| panel_open := λ _ _, quiet;
     panel_post := λ _ _ _, quiet;
     panel_get := λ _ _ e, (Ok response, e);
     panel_url := λ p _, Ok (VObj cls_URL {[ "pathname" := p ]});
     panel_notification_error := λ _, quiet |}.

(** A backend response for the dialog: a text dialog with one prop. *)
Definition text_dialog : value :=
  record [ ("component", VStr "k-text-dialog");
           ("props", record [ ("text", VStr "Saved") ]) ].

Definition dialog_response : value := record [ ("$dialog", text_dialog) ].

(** A feature that shows the component [c]. *)
Definition showing (c : value) : World unit :=
  mkWorld (mkState c (VBool false) ∅ VNull (VObj cls_Object ∅) (VObj cls_Object ∅) VNull VNull) () [].

(** A panel cut off from its backend: every call throws, the
    notification included; [panel.url] still builds a [URL]. *)
Definition broken : Effect unit := λ e, (Throw (Error "offline"), e).

Definition broken_panel : Panel unit :=
  {| panel_open := λ _ _, broken;
     panel_post := λ _ _ _, broken;
     panel_get := λ _ _, broken;
     panel_url := λ p _, Ok (VObj cls_URL {[ "pathname" := p ]});
     panel_notification_error := λ _, broken |}.

(** A panel whose [panel.url] throws. *)
Definition urlless_panel : Panel unit :=
  {| panel_open := λ _ _, quiet;
     panel_post := λ _ _ _, quiet;
     panel_get := λ _ _, quiet;
     panel_url := λ _ _, Throw TypeError;
     panel_notification_error := λ _, quiet |}.

(** Listeners that return their first argument. *)
Definition echo : string → list value → Effect unit :=
  λ _ args e, (Ok (default VUndefined (head args)), e).

(** Listeners that throw. *)
Definition throwing : string → list value → Effect unit :=
  λ _ _ e, (Throw (Error "listener failed"), e).

(** A backend response for the dialog that names the component and
    nothing else. *)
Definition bare_response : value :=
  record [ ("$dialog", record [ ("component", VStr "k-text-dialog") ]) ].

(** A feature as created, in a world where nothing has been called. *)
Definition fresh : World unit := mkWorld defaults () [].

(** [this.path = v] on a fresh feature. *)
Definition fresh_at (v : value) : World unit :=
  mkWorld (mkState VNull (VBool false) ∅ v (VObj cls_Object ∅) (VObj cls_Object ∅) VNull VNull) () [].

(** A fresh feature on which the listeners [l] have been registered. *)
Definition listening (l : gmap string value) : World unit :=
  mkWorld (mkState VNull (VBool false) l VNull (VObj cls_Object ∅) (VObj cls_Object ∅) VNull VNull) () [].

(** A state object as passed to [open]: a component and an "open"
    listener. *)
Definition page_dialog : value :=
  record [ ("component", VStr "k-page-dialog");
           ("on", record [ ("open", VFun (named "opened")) ]) ].

(** The reading of [hasSubmitter] in the specification: a callable
    submit listener, or a path that is a non-empty string. *)
Definition hasSubmitter_spec (s : State) : Prop :=
  (∃ f, on s !! "submit" = Some (VFun f)) ∨ (∃ p, path s = VStr p ∧ p ≠ "").

(** * The date field (Forms/Field/DateField)

    The field keeps the ISO strings of its date part and of its time
    part, each [null] when empty, and emits an "input" event when one
    of its two inputs changes.  The dayjs library and the [+] of the
    engine are parameters. *)

Module DateField.

(** The [time] prop ([false] for a field without time) and the [iso]
    data. *)
Record Data := mkData {
  time : value;
  iso_date : value;
  iso_time : value
}.

(** The events emitted by a method, oldest first. *)
Definition Emitted : Type := list (string * list value).

(** [a && b] *)
Definition and_then (a b : value) : value := if truthy a then b else a.

Section Methods.

(** The dayjs objects; [this.$library.dayjs.iso(v)], which gives such
    an object or [null]; [dt.toISO(format)]; [this.$library.dayjs()],
    the present moment; and [a + b]. *)
Variable Dayjs : Type.
Variable dayjs_iso : value → option Dayjs.
Variable toISO : Dayjs → option string → value.
Variable today : Dayjs.
Variable plus : value → value → value.

(** [dt?.toISO(format)] *)
Definition toISO_opt (dt : option Dayjs) (format : option string) : value :=
  match dt with
  | Some d => toISO d format
  | None => VUndefined
  end.

Definition isEmpty (d : Data) : value :=
  if truthy (time d)
  then and_then (VBool (strict_eq (iso_date d) VNull)) (iso_time d)
  else VBool (strict_eq (iso_date d) VNull).

Definition now (d : Data) : value :=
  record [ ("date", toISO today (Some "date"));
           ("time", if truthy (time d) then toISO today (Some "time")
                    else VStr "00:00:00") ].

Definition onInput (d : Data) : Emitted :=
  if truthy (isEmpty d) then [("input", [VStr ""])]
  else
    let dt := dayjs_iso (plus (plus (iso_date d) (VStr " ")) (iso_time d)) in
    if negb (bool_decide (is_Some dt))
       && (strict_eq (iso_date d) VNull || strict_eq (iso_time d) VNull)
    then []
    else [("input", [coalesce (toISO_opt dt None) (VStr "")])].

Definition onDateInput (v : value) (d : Data) : Data * Emitted :=
  let d :=
    if truthy v && negb (truthy (iso_time d))
    then mkData (time d) (iso_date d) (prop (now d) "time")
    else d in
  let d := mkData (time d) v (iso_time d) in
  (d, onInput d).

Definition onTimeInput (v : value) (d : Data) : Data * Emitted :=
  let d :=
    if truthy v && negb (truthy (iso_date d))
    then mkData (time d) (prop (now d) "date") (iso_time d)
    else d in
  let d := mkData (time d) (iso_date d) v in
  (d, onInput d).

Definition toIso (v : value) : value :=
  let dt := dayjs_iso v in
  record [ ("date", coalesce (toISO_opt dt (Some "date")) VNull);
           ("time", coalesce (toISO_opt dt (Some "time")) VNull) ].

End Methods.

Arguments toISO_opt {Dayjs}.
Arguments now {Dayjs}.
Arguments onInput {Dayjs}.
Arguments onDateInput {Dayjs}.
Arguments onTimeInput {Dayjs}.
Arguments toIso {Dayjs}.

(** A dayjs that knows one moment, kept as its ISO string. *)
Definition moment : string := "2024-05-01 00:00:00".

Definition parse (v : value) : option string :=
  match v with
  | VStr s => if bool_decide (s = moment) then Some s else None
  | _ => None
  end.

Definition format (dt : string) (f : option string) : value :=
  match f with
  | None => VStr dt
  | Some "date" => VStr "2024-05-01"
  | Some _ => VStr "00:00:00"
  end.

(** [a + b] on strings and [null]. *)
Definition text (v : value) : string :=
  match v with
  | VStr s => s
  | VNull => "null"
  | _ => "undefined"
  end.

Definition concat (a b : value) : value := VStr (text a +:+ text b).

End DateField.

(** ** Values and listener maps *)

Lemma is_function_spec (v : value) : is_function v = true ↔ ∃ f, v = VFun f.
Proof.
  split.
  - destruct v; try discriminate. eauto.
  - intros [f ->]. reflexivity.
Qed.

Lemma is_string_spec (v : value) : is_string v = true ↔ ∃ s, v = VStr s.
Proof.
  split.
  - destruct v; try discriminate. eauto.
  - intros [s ->]. reflexivity.
Qed.

Lemma callable_lookup (m : gmap string value) (k : string) :
  callable m !! k =
  match m !! k with
  | Some v => if is_function v then Some v else None
  | None => None
  end.
Proof.
  unfold callable. rewrite map_lookup_filter.
  destruct (m !! k) as [v|]; simpl; [|done].
  destruct (is_function v) eqn:E.
  - by rewrite option_guard_True.
  - rewrite option_guard_False; [done|]. simpl. congruence.
Qed.

(** What the loop of [addEventListeners] leaves under each name. *)
Lemma register_lookup (listeners registered : gmap string value) (k : string) :
  register listeners registered !! k =
  match listeners !! k with
  | Some v => if is_function v then Some v else registered !! k
  | None => registered !! k
  end.
Proof.
  revert k. unfold register.
  apply (map_fold_weak_ind (λ acc m, ∀ k,
    acc !! k = match m !! k with
               | Some v => if is_function v then Some v else registered !! k
               | None => registered !! k
               end)).
  - intros k. by rewrite lookup_empty.
  - intros i x m acc Hi IH k.
    destruct (decide (i = k)) as [->|Hne].
    + rewrite lookup_insert_eq. destruct (is_function x).
      * by rewrite lookup_insert_eq.
      * by rewrite IH, Hi.
    + rewrite (lookup_insert_ne m) by done. destruct (is_function x).
      * by rewrite lookup_insert_ne.
      * apply IH.
Qed.

Lemma register_union (listeners registered : gmap string value) :
  register listeners registered = callable listeners ∪ registered.
Proof.
  apply map_eq. intros k.
  rewrite register_lookup, lookup_union, callable_lookup.
  destruct (listeners !! k) as [v|]; [destruct (is_function v)|];
    by destruct (registered !! k).
Qed.

Lemma register_fresh (listeners : gmap string value) :
  register listeners ∅ = callable listeners.
Proof. rewrite register_union. apply (right_id_L ∅ (∪)). Qed.

Lemma callable_listeners_callable (m : gmap string value) :
  listeners_callable (callable m).
Proof.
  intros k v. rewrite callable_lookup.
  destruct (m !! k) as [u|]; [|done].
  destruct (is_function u) eqn:E; [|done]. congruence.
Qed.

Lemma register_listeners_callable (listeners registered : gmap string value) :
  listeners_callable registered →
  listeners_callable (register listeners registered).
Proof.
  intros Hreg k v. rewrite register_lookup.
  destruct (listeners !! k) as [u|]; [|apply Hreg].
  destruct (is_function u) eqn:E; [congruence|apply Hreg].
Qed.

(** ** Unfolding the monad *)

Ltac run :=
  unfold mbind, M_bind, mret, M_ret, throw, this, assign, external,
    try_catch, try_finally, detached, lift; simpl.

(** ** The model at work *)

Example post_success :
  post idle_panel "dialog" VUndefined VUndefined (fresh_at (VStr "/x")) =
    (Ok VUndefined,
     mkWorld (feature (fresh_at (VStr "/x"))) ()
             [EvPanelPost (VStr "/x") (VObj cls_Object ∅) (VObj cls_Object ∅)]).
Proof. reflexivity. Qed.

Example post_value_from_props :
  trace (post idle_panel "dialog" VNull (VNum 1)
           (mkWorld (with_props (record [ ("value", VStr "draft") ])
                       (feature (fresh_at (VStr "/x")))) () [])).2 =
    [EvPanelPost (VStr "/x") (VStr "draft") (VNum 1)].
Proof. reflexivity. Qed.

Example load_registers_submit :
  let after := load idle_panel (VStr "/dialogs/page")
                 (normalize (VFun (named "save"))) fresh in
  hasSubmitter (feature after.2) = true ∧
  isLoading (feature after.2) = VBool false ∧
  trace after.2 =
    [EvPanelOpen (VStr "/dialogs/page")
       (record [ ("on", record [ ("submit", VFun (named "save")) ]) ])].
Proof. by repeat split. Qed.

Example set_of_null_throws :
  set VNull (listening {[ "submit" := VFun (named "save") ]}) =
    (Throw TypeError, fresh).
Proof. reflexivity. Qed.

Example refresh_of_stale_response :
  refresh (answering_panel dialog_response) "dialog" VUndefined
          (showing (VStr "k-form-dialog")) =
    (Ok VUndefined,
     mkWorld (feature (showing (VStr "k-form-dialog"))) ()
       [EvPanelGet (VObj cls_URL {[ "pathname" := VNull ]})
          (record [ ("url", VObj cls_URL {[ "pathname" := VNull ]}) ])]).
Proof. reflexivity. Qed.

(** With the empty string as path, [post] refuses and [reload] does
    nothing: both test [!this.path]. *)
Example post_at_empty_path :
  post idle_panel "dialog" VUndefined VUndefined (fresh_at (VStr "")) =
    (Throw (Error "The dialog cannot be posted"), fresh_at (VStr "")) ∧
  reload idle_panel echo (λ _, true) VUndefined (fresh_at (VStr "")) =
    (Ok (VBool false), fresh_at (VStr "")).
Proof. by split. Qed.

(** ** hasSubmitter *)

Lemma hasEventListener_spec (event : string) (s : State) :
  inherited event = VUndefined →
  hasEventListener event s = true ↔ ∃ f, on s !! event = Some (VFun f).
Proof.
  intros Hplain. unfold hasEventListener, lookup_plain. rewrite is_function_spec.
  destruct (on s !! event) as [v|]; simpl.
  - split; intros [f Hf]; exists f; congruence.
  - rewrite Hplain. split; intros [f Hf]; discriminate.
Qed.

(** C1 fails on the code at the empty path: with the empty string as
    path and no listener, [hasSubmitter] answers true although no
    submit listener is registered and the path is not a non-empty
    string. *)
Lemma hasSubmitter_empty_path :
  hasSubmitter (feature (fresh_at (VStr ""))) = true ∧
  ¬ hasSubmitter_spec (feature (fresh_at (VStr ""))).
Proof.
  split; [reflexivity|].
  intros [[f Hf]|[p [Hp Hne]]]; simpl in *.
  - rewrite lookup_empty in Hf. discriminate.
  - injection Hp as <-. by apply Hne.
Qed.

(** What [hasSubmitter] computes: true exactly when a function is
    stored under "submit" or the path is a string of any length; false
    on the default state. *)
Theorem hasSubmitter_iff (s : State) :
  (hasSubmitter s = true ↔
     (∃ f, on s !! "submit" = Some (VFun f)) ∨ (∃ p, path s = VStr p)) ∧
  hasSubmitter defaults = false.
Proof.
  split; [|reflexivity].
  unfold hasSubmitter.
  destruct (hasEventListener "submit" s) eqn:E.
  - apply hasEventListener_spec in E; [|done]. by split; [left|].
  - destruct (is_string (path s)) eqn:P.
    + apply is_string_spec in P. by split; [right|].
    + split; [discriminate|].
      intros [H|H].
      * apply hasEventListener_spec in H; [|done]. congruence.
      * apply is_string_spec in H. congruence.
Qed.

Section Properties.

Context {X : Type}.
Variable panel : Panel X.
Variable apply : string → list value → Effect X.
Variable key : string.
Variable parses_as_url : string → bool.

(** ** addEventListeners and set, run *)

Lemma with_on_same (s : State) : with_on (on s) s = s.
Proof. by destruct s. Qed.

Lemma supplied_coalesce (v : value) :
  supplied (coalesce v (VObj cls_Object ∅)) = supplied v.
Proof.
  destruct v; try reflexivity; simpl; unfold callable; apply map_filter_empty.
Qed.

Lemma supplied_listeners_callable (v : value) : listeners_callable (supplied v).
Proof.
  destruct v as [| | | | | |c l]; try apply map_Forall_empty.
  destruct c; try apply map_Forall_empty. apply callable_listeners_callable.
Qed.

Lemma addEventListeners_run (listeners : value) (w : World X) :
  addEventListeners listeners w =
  (Ok VUndefined,
   mkWorld (with_on (supplied listeners ∪ on (feature w)) (feature w))
           (outside w) (trace w)).
Proof.
  assert (Hskip : supplied listeners = ∅ →
    (Ok VUndefined, w) =
    (Ok VUndefined : result value,
     mkWorld (with_on (supplied listeners ∪ on (feature w)) (feature w))
             (outside w) (trace w))).
  { intros ->. rewrite (left_id_L ∅ (∪)), with_on_same. by destruct w. }
  unfold addEventListeners.
  destruct listeners as [| | | | | |c l]; try (by apply Hskip).
  destruct c; try (by apply Hskip).
  run. by rewrite register_union.
Qed.

Lemma set_run (c : class) (m : gmap string value) (w : World X) :
  let s := with_on (supplied (prop (VObj c m) "on")) (merge (VObj c m) (feature w)) in
  set (VObj c m) w = (Ok (state_of s), mkWorld s (outside w) (trace w)).
Proof.
  unfold set, Module_set, member. simpl nullish. cbv iota.
  unfold state. run. rewrite addEventListeners_run. simpl.
  by rewrite supplied_coalesce, (right_id_L ∅ (∪)).
Qed.

(** ** post *)

(** C2: on a feature whose path is falsy, [post] throws an error whose
    message contains the key; the world is the one before the call, so
    no field is written and [isLoading] keeps its value. *)
Theorem post_without_path (val options : value) (w : World X) :
  truthy (path (feature w)) = false →
  ∃ message,
    post panel key val options w = (Throw (Error message), w) ∧
    prop (Error message) "message" = VStr message ∧
    contains key message ∧
    (isLoading (feature w) = VBool false →
     isLoading (feature (post panel key val options w).2) = VBool false).
Proof.
  intros Hpath. exists ("The " +:+ key +:+ " cannot be posted").
  assert (Hrun : post panel key val options w
                 = (Throw (Error ("The " +:+ key +:+ " cannot be posted")), w)).
  { unfold post. run. by rewrite Hpath. }
  rewrite Hrun. repeat split.
  - by exists "The ", " cannot be posted".
  - done.
Qed.

(** C3: on a feature whose path is set, when [panel.post] throws, the
    error is handed to [panel.notification.error] and, once that call
    returns, [post] returns [false] instead of throwing; and whatever
    the outcome of [post], [isLoading] is [false] afterwards. *)
Theorem post_transport_failure (val options : value) (w : World X) :
  let s0 := with_isLoading (VBool true) (feature w) in
  let v := coalesce (coalesce val (prop_opt (props (feature w)) "value")) (VObj cls_Object ∅) in
  let o := or_empty options in
  truthy (path (feature w)) = true →
  (∀ error s1 x1 r s2 x2,
     panel_post panel (path (feature w)) v o (s0, outside w) = (Throw error, (s1, x1)) →
     panel_notification_error panel error (s1, x1) = (Ok r, (s2, x2)) →
     post panel key val options w =
       (Ok (VBool false),
        mkWorld (with_isLoading (VBool false) s2) x2
                ((trace w ++ [EvPanelPost (path (feature w)) v o])
                   ++ [EvNotificationError error]))) ∧
  isLoading (feature (post panel key val options w).2) = VBool false.
Proof.
  intros s0 v o Hpath. subst s0 v o. split.
  - intros error s1 x1 r s2 x2 Hpost Hnotify.
    unfold post. run. rewrite Hpath. simpl.
    rewrite Hpost. simpl.
    rewrite Hnotify. reflexivity.
  - unfold post. run. rewrite Hpath. simpl.
    destruct (panel_post _ _ _ _ _) as [[r|error] [s1 x1]]; simpl; [done|].
    destruct (panel_notification_error _ _ _) as [[r|error'] [s2 x2]]; done.
Qed.

(** ** refresh *)

(** C4: the response of [panel.get] is a record and the options are an
    object.  When the record has no field "$" + key, or the component
    of that field is not the feature's component at the time the
    response arrives, [refresh] returns [undefined] without an error
    and leaves every field as the response found it; a field that is
    falsy is passed over in the same way.  When the field is a record
    with the feature's component, [props] becomes the field's [props],
    the seven other fields stay, and the snapshot is returned. *)
Theorem refresh_response (options : value) (w : World X)
    (c rc : class) (m fields : gmap string value) (target : value)
    (s1 : State) (x1 : X) :
  let given := prop (VObj c m) "url" in
  let request := VObj c (<["url" := target]> m) in
  let w1 := mkWorld s1 x1 (trace w ++ [EvPanelGet target request]) in
  let sub := fields !! ("$" +:+ key) in
  or_empty options = VObj c m →
  (if nullish given then url panel (feature w) else Ok given) = Ok target →
  panel_get panel target request (feature w, outside w) = (Ok (VObj rc fields), (s1, x1)) →
  (sub = None ∨
   (∃ st, sub = Some st ∧ strict_eq (prop st "component") (component s1) = false) →
   refresh panel key options w = (Ok VUndefined, w1)) ∧
  (∀ st, sub = Some st → truthy st = false →
   refresh panel key options w = (Ok VUndefined, w1)) ∧
  (∀ sc st,
     sub = Some (VObj sc st) →
     strict_eq (prop (VObj sc st) "component") (component s1) = true →
     let s2 := feature (refresh panel key options w).2 in
     refresh panel key options w = (Ok (state_of s2), mkWorld s2 x1 (trace w1)) ∧
     props s2 = prop (VObj sc st) "props" ∧
     component s2 = component s1 ∧
     isLoading s2 = isLoading s1 ∧
     on s2 = on s1 ∧
     path s2 = path s1 ∧
     query s2 = query s1 ∧
     referrer s2 = referrer s1 ∧
     timestamp s2 = timestamp s1).
Proof.
  intros given request w1 sub Hoptions Htarget Hget.
  assert (Hrun : refresh panel key options w =
    (let state' := default VUndefined sub in
     if negb (truthy state') || negb (strict_eq (prop state' "component") (component s1))
     then mret VUndefined
     else (assign (with_props (prop state' "props"));; state)) w1).
  { unfold refresh. rewrite Hoptions. unfold member at 1. simpl nullish. run.
    fold given. destruct (nullish given).
    - rewrite Htarget. simpl. fold request. rewrite Hget. reflexivity.
    - injection Htarget as ->. simpl. fold request. rewrite Hget. reflexivity. }
  rewrite Hrun. clear Hrun. simpl. split; [|split].
  - intros [Hnone|(st & Hsome & Hne)].
    + rewrite Hnone. reflexivity.
    + rewrite Hsome. simpl. rewrite Hne, orb_true_r. reflexivity.
  - intros st Hsome Hfalsy. rewrite Hsome. simpl. rewrite Hfalsy. reflexivity.
  - intros sc st Hsome Heq. rewrite Hsome.
    change (default VUndefined (Some (VObj sc st))) with (VObj sc st).
    cbv zeta. rewrite Heq. simpl. repeat split.
Qed.

(** ** set *)

(** C5: whatever listeners were registered before, after [set] of a
    record the listener map holds exactly the callable entries of the
    record's [on] (none when [on] is missing or is not a plain record);
    a listener registered before and not supplied again is gone; [set]
    returns the snapshot of the state it leaves and calls nothing. *)
Theorem set_resets_listeners (c : class) (m : gmap string value) (w : World X) :
  let after := set (VObj c m) w in
  let given :=
    match m !! "on" with
    | Some (VObj cls_Object l) => callable l
    | _ => ∅
    end in
  on (feature after.2) = given ∧
  (∀ event, given !! event = None → on (feature after.2) !! event = None) ∧
  after.1 = Ok (state_of (feature after.2)) ∧
  trace after.2 = trace w.
Proof.
  intros after given. subst after. rewrite set_run. simpl.
  assert (Hgiven : supplied (prop (VObj c m) "on") = given).
  { unfold prop, given. simpl. by destruct (m !! "on") as [[]|]. }
  rewrite Hgiven. by repeat split.
Qed.

(** ** addEventListeners and emit *)

Lemma invoke_trace (f : fname) (args : list value) (w : World X) :
  trace (invoke apply f args w).2 = trace w ++ [EvCall f args].
Proof.
  unfold invoke, external.
  by destruct (behaviour apply f args (feature w, outside w)) as [r [s x]].
Qed.

Lemma emit_registered (event : string) (args : list value) (f : fname) (w : World X) :
  on (feature w) !! event = Some (VFun f) →
  emit apply event args w = invoke apply f args w.
Proof.
  intros Hon. unfold emit, hasEventListener, lookup_plain. run. by rewrite Hon.
Qed.

(** C6: a value that is not a plain record is passed over: no error, no
    change.  For a plain record every callable entry is stored under its
    name, replacing what was there, every other entry leaves the name as
    it was, and nothing but the listener map changes.  Registering [f1]
    and then [f2] for "submit" makes [emit] call [f2] with the arguments
    given, and nothing else. *)
Theorem addEventListeners_registers (listeners : value) (w : World X) :
  (isObject listeners = false →
   addEventListeners listeners w = (Ok VUndefined, w)) ∧
  (∀ m, listeners = VObj cls_Object m →
     let after := addEventListeners listeners w in
     after.1 = Ok VUndefined ∧
     after.2 = mkWorld (with_on (on (feature after.2)) (feature w)) (outside w) (trace w) ∧
     ∀ event,
       on (feature after.2) !! event =
       match m !! event with
       | Some v => if is_function v then Some v else on (feature w) !! event
       | None => on (feature w) !! event
       end) ∧
  (∀ f1 f2 args,
     let w1 := (addEventListeners (record [ ("submit", VFun f1) ]) w).2 in
     let w2 := (addEventListeners (record [ ("submit", VFun f2) ]) w1).2 in
     emit apply "submit" args w2 = invoke apply f2 args w2 ∧
     trace (emit apply "submit" args w2).2 = trace w ++ [EvCall f2 args]).
Proof.
  split; [|split].
  - intros Hno. unfold addEventListeners. by rewrite Hno.
  - intros m -> after. subst after. rewrite addEventListeners_run. simpl.
    repeat split. intros event.
    by rewrite <- register_union, register_lookup.
  - intros f1 f2 args w1 w2.
    assert (Hon : on (feature w2) !! "submit" = Some (VFun f2)).
    { subst w2 w1. rewrite !addEventListeners_run. simpl.
      rewrite <- !register_union, register_lookup. reflexivity. }
    rewrite (emit_registered _ _ f2) by done.
    split; [done|]. rewrite invoke_trace.
    subst w2 w1. by rewrite !addEventListeners_run.
Qed.

(** What [emit] does.  With a function [f] stored under the event,
    [emit] is the call of [f] with the arguments given: one call in the
    trace, and the result (or the exception) and the effect of [f].
    When [hasEventListener] is false, [emit] throws nothing, touches
    nothing and returns the dummy listener, a function that does
    nothing. *)
Theorem emit_dispatch (event : string) (args : list value) (w : World X) :
  (∀ f, on (feature w) !! event = Some (VFun f) →
     emit apply event args w =
       (let '(r, (s, x)) := behaviour apply f args (feature w, outside w) in
        (r, mkWorld s x (trace w ++ [EvCall f args])))) ∧
  (hasEventListener event (feature w) = false →
     emit apply event args w = (Ok (VFun dummy_listener), w)) ∧
  (∀ args' e, behaviour apply dummy_listener args' e = (Ok VUndefined, e)).
Proof.
  split; [|split].
  - intros f Hon. by rewrite (emit_registered _ _ f).
  - intros Hno. unfold emit. run. by rewrite Hno.
  - done.
Qed.

(** C7: the second half of the claim fails on the code at the names a
    plain object inherits.  On a feature as created, with no listener
    registered, [hasEventListener("toString")] is true;
    [emit("toString", ...)] calls [Object.prototype.toString] on the
    listener map and returns "[object Object]", and
    [emit("__defineGetter__")] throws a [TypeError], where the claim has
    the dummy listener returned and nothing thrown. *)
Theorem emit_inherited_name (args : list value) (x : X) :
  let w := mkWorld defaults x [] in
  on (feature w) = ∅ ∧
  hasEventListener "toString" (feature w) = true ∧
  emit apply "toString" args w =
    (Ok (VStr "[object Object]"),
     mkWorld defaults x [EvCall (method "toString") args]) ∧
  emit apply "__defineGetter__" [] w =
    (Throw TypeError,
     mkWorld defaults x [EvCall (method "__defineGetter__") []]).
Proof. by repeat split. Qed.

(** ** open, load and reload *)

Lemma set_on (input : value) (w : World X) :
  on (feature (set input w).2) = supplied (prop input "on") ∧
  trace (set input w).2 = trace w.
Proof.
  destruct input as [| | | | | |c m];
    try (unfold set, Module_set, member, state; run;
         rewrite ?addEventListeners_run; simpl;
         rewrite ?(right_id_L ∅ (∪)); by rewrite ?map_filter_empty).
  rewrite set_run. simpl. by split.
Qed.

Lemma load_trace (target options : value) (w : World X) :
  trace (load panel target options w).2 =
  trace w ++ [EvPanelOpen target (or_empty options)].
Proof.
  unfold load. run.
  destruct (panel_open _ _ _ _) as [[r|e] [s x]]; simpl; [|done].
  unfold member. destruct (nullish (or_empty options)); run; [done|].
  by rewrite addEventListeners_run.
Qed.

(** C8: a function given as options stands for the options
    [{on: {submit: options}}]; [open] of a URL-like target is [load] of
    it.  For a plain record as target (and options that are not null)
    [open] first runs [set] and registers the listeners of the options:
    the listener map is then made of what the options and the target
    supply, whatever was registered before, and nothing has been called,
    the panel included.  Then "open" is emitted: a registered function
    is called once, with the target and the options, and when it
    returns [open] returns the snapshot; without one nothing is called
    at all. *)
Theorem open_paths (target options : value) (w : World X) :
  (is_function options = true →
   open panel apply parses_as_url target options w =
   open panel apply parses_as_url target
        (record [ ("on", record [ ("submit", options) ]) ]) w) ∧
  (isUrl parses_as_url target = true →
   open panel apply parses_as_url target options w =
   load panel target (normalize (or_empty options)) w) ∧
  (∀ m, target = VObj cls_Object m →
     let options' := normalize (or_empty options) in
     nullish options' = false →
     let w2 := (addEventListeners (prop options' "on") (set target w).2).2 in
     on (feature w2) = supplied (prop options' "on") ∪ supplied (prop target "on") ∧
     trace w2 = trace w ∧
     open panel apply parses_as_url target options w =
       (emit apply "open" [target; options'];; state) w2 ∧
     (∀ f, on (feature w2) !! "open" = Some (VFun f) →
        trace (open panel apply parses_as_url target options w).2 =
          trace w ++ [EvCall f [target; options']] ∧
        ∀ r s x,
          behaviour apply f [target; options'] (feature w2, outside w2) = (Ok r, (s, x)) →
          open panel apply parses_as_url target options w =
            (Ok (state_of s), mkWorld s x (trace w ++ [EvCall f [target; options']]))) ∧
     (hasEventListener "open" (feature w2) = false →
        open panel apply parses_as_url target options w =
          (Ok (state_of (feature w2)), w2))).
Proof.
  split; [|split].
  - intros Hfun. apply is_function_spec in Hfun as [f ->]. reflexivity.
  - intros Hurl. unfold open. by rewrite Hurl.
  - intros m -> options' Hoptions w2.
    assert (Hopen : open panel apply parses_as_url (VObj cls_Object m) options w =
                    (emit apply "open" [VObj cls_Object m; options'];; state) w2).
    { unfold open. fold options'.
      change (isUrl parses_as_url (VObj cls_Object m)) with false. cbv iota.
      unfold member. rewrite Hoptions. subst w2.
      unfold mbind, M_bind, mret, M_ret.
      rewrite set_run. cbv beta iota zeta. cbn [snd].
      by rewrite !addEventListeners_run. }
    assert (Htrace : trace w2 = trace w).
    { subst w2. rewrite addEventListeners_run. simpl. apply set_on. }
    split; [|split; [done|split; [done|split]]].
    + subst w2. rewrite addEventListeners_run. simpl.
      by rewrite (proj1 (set_on _ _)).
    + intros f Hon. rewrite Hopen. unfold state. run.
      rewrite (emit_registered _ _ f) by done.
      unfold invoke, external. rewrite Htrace. split.
      * by destruct (behaviour _ _ _ _) as [[r|e] [s x]].
      * intros r s x Hcall. by rewrite Hcall.
    + intros Hno. rewrite Hopen. unfold state, emit. run. by rewrite Hno.
Qed.

(** C9: with a falsy path [reload] returns [false]; the world is the one
    before the call, so nothing is written and nothing is called.  With
    a path that is set, [reload] makes one call of [open], with the URL
    that [url()] builds from path and query, does not wait for it and
    returns [undefined]; every change is the change [open] makes.  The
    URL being URL-like, that [open] is a [load]: one call of
    [panel.open] with this URL. *)
Theorem reload_paths (options : value) (w : World X) :
  (truthy (path (feature w)) = false →
   reload panel apply parses_as_url options w = (Ok (VBool false), w)) ∧
  (∀ target,
     truthy (path (feature w)) = true →
     panel_url panel (path (feature w)) (query (feature w)) = Ok target →
     reload panel apply parses_as_url options w =
       (Ok VUndefined, (open panel apply parses_as_url target (or_empty options) w).2) ∧
     (isUrl parses_as_url target = true →
      open panel apply parses_as_url target (or_empty options) w =
        load panel target (normalize (or_empty options)) w ∧
      trace (reload panel apply parses_as_url options w).2 =
        trace w ++ [EvPanelOpen target (normalize (or_empty options))])).
Proof.
  split.
  - intros Hpath. unfold reload. run. by rewrite Hpath.
  - intros target Hpath Hurl.
    assert (Hreload : reload panel apply parses_as_url options w =
      (Ok VUndefined, (open panel apply parses_as_url target (or_empty options) w).2)).
    { unfold reload, url. run. rewrite Hpath, Hurl. reflexivity. }
    split; [done|]. intros Hlike.
    assert (Hidem : or_empty (or_empty options) = or_empty options) by by destruct options.
    assert (Hopen : open panel apply parses_as_url target (or_empty options) w =
                    load panel target (normalize (or_empty options)) w).
    { unfold open. by rewrite Hlike, Hidem. }
    split; [done|].
    rewrite Hreload. cbn [snd]. rewrite Hopen, load_trace.
    by destruct options as [| | | | |f|c m].
Qed.

(** ** The listener map holds functions only *)

Lemma union_listeners_callable (a b : gmap string value) :
  listeners_callable a → listeners_callable b → listeners_callable (a ∪ b).
Proof.
  intros Ha Hb k v Hk. apply lookup_union_Some_raw in Hk as [Hk|[_ Hk]].
  - by apply (Ha k).
  - by apply (Hb k).
Qed.

Lemma addEventListeners_keeps (listeners : value) (w : World X) :
  listeners_callable (on (feature w)) →
  listeners_callable (on (feature (addEventListeners listeners w).2)).
Proof.
  intros Hw. rewrite addEventListeners_run. simpl.
  apply union_listeners_callable; [apply supplied_listeners_callable|done].
Qed.

Lemma set_keeps (input : value) (w : World X) :
  listeners_callable (on (feature (set input w).2)).
Proof. rewrite (proj1 (set_on input w)). apply supplied_listeners_callable. Qed.

Section Invariant.

Hypothesis panel_open_keeps :
  ∀ target options, keeps_listeners_callable (panel_open panel target options).
Hypothesis apply_keeps :
  ∀ id args, keeps_listeners_callable (apply id args).

Lemma load_keeps (target options : value) (w : World X) :
  listeners_callable (on (feature w)) →
  listeners_callable (on (feature (load panel target options w).2)).
Proof.
  intros Hw. unfold load. run.
  pose proof (panel_open_keeps target (or_empty options)
                (with_isLoading (VBool true) (feature w), outside w) Hw) as Hopen.
  destruct (panel_open _ _ _ _) as [[r|e] [s x]]; simpl in *; [|done].
  unfold member. destruct (nullish (or_empty options)); run; [done|].
  rewrite addEventListeners_run. simpl.
  apply union_listeners_callable; [apply supplied_listeners_callable|done].
Qed.

Lemma emit_keeps (event : string) (args : list value) (w : World X) :
  listeners_callable (on (feature w)) →
  listeners_callable (on (feature (emit apply event args w).2)).
Proof.
  intros Hw. unfold emit. run.
  destruct (hasEventListener event (feature w)); [|done].
  destruct (lookup_plain (on (feature w)) event) as [| | | | |f|]; try done.
  unfold call, invoke, external.
  assert (Hcall : listeners_callable
                    (on (behaviour apply f args (feature w, outside w)).2.1)).
  { destruct f as [|id|name]; [done|by apply apply_keeps|].
    simpl. unfold Object_prototype_method.
    repeat case_match; try done. by apply apply_keeps. }
  by destruct (behaviour _ _ _ _) as [r [s x]].
Qed.

Lemma open_keeps (target options : value) (w : World X) :
  listeners_callable (on (feature w)) →
  listeners_callable (on (feature (open panel apply parses_as_url target options w).2)).
Proof.
  intros Hw. unfold open, member.
  destruct (isUrl parses_as_url target); [by apply load_keeps|].
  pose proof (set_keeps target w) as Hset.
  destruct (nullish _);
    unfold mbind, M_bind, mret, M_ret, throw; cbv beta;
    destruct (set target w) as [[r|e] w1]; simpl in Hset; try done.
  pose proof (addEventListeners_keeps
                (prop (normalize (or_empty options)) "on") w1 Hset) as Hadd.
  destruct (addEventListeners _ w1) as [[r1|e1] w2]; simpl in Hadd; [|done].
  pose proof (emit_keeps "open" [target; normalize (or_empty options)] w2 Hadd) as Hemit.
  by destruct (emit _ _ _ w2) as [[r2|e2] w3].
Qed.

Lemma perform_keeps (c : Call) (w : World X) :
  listeners_callable (on (feature w)) →
  listeners_callable (on (feature (perform panel apply parses_as_url c w).2)).
Proof.
  destruct c; simpl.
  - apply addEventListeners_keeps.
  - intros _. apply set_keeps.
  - apply open_keeps.
  - apply load_keeps.
Qed.

Lemma perform_all_keeps (calls : list Call) (w : World X) :
  listeners_callable (on (feature w)) →
  listeners_callable (on (feature (perform_all panel apply parses_as_url calls w))).
Proof.
  revert w. induction calls as [|c calls IH]; intros w Hw; [done|].
  simpl. by apply IH, perform_keeps.
Qed.

End Invariant.

(** C10: the panel and the listeners leave functions only in a listener
    map that holds functions only.  Then, starting from the default
    state, after any sequence of calls to [addEventListeners], [set],
    [open] and [load], whether they return or throw, every value in the
    listener map is a function. *)
Theorem listeners_stay_callable (calls : list Call) (x : X) :
  (∀ target options, keeps_listeners_callable (panel_open panel target options)) →
  (∀ id args, keeps_listeners_callable (apply id args)) →
  let w := perform_all panel apply parses_as_url calls (mkWorld defaults x []) in
  listeners_callable (on (feature w)) ∧
  ∀ event v, on (feature w) !! event = Some v → ∃ f, v = VFun f.
Proof.
  intros Hopen Happly w.
  assert (Hw : listeners_callable (on (feature w))).
  { apply perform_all_keeps; [done|done|]. apply map_Forall_empty. }
  split; [done|]. intros event v Hv. apply is_function_spec. by apply (Hw event).
Qed.

(** ** Listeners and hasSubmitter *)

Lemma hasEventListener_of_entry (event : string) (f : fname) (s : State) :
  on s !! event = Some (VFun f) → hasEventListener event s = true.
Proof. intros Hon. unfold hasEventListener, lookup_plain. by rewrite Hon. Qed.


Lemma hasSubmitter_true_of_listener (s : State) :
  (∃ f, on s !! "submit" = Some (VFun f)) → hasSubmitter s = true.
Proof.
  intros [f Hf]. apply hasEventListener_of_entry in Hf.
  unfold hasSubmitter. by rewrite Hf.
Qed.

Lemma emit_unregistered (event : string) (args : list value) (w : World X) :
  hasEventListener event (feature w) = false →
  emit apply event args w = (Ok (VFun dummy_listener), w).
Proof. intros Hno. unfold emit. run. by rewrite Hno. Qed.

(** ** load and post, run *)

Lemma load_run (target options : value) (w : World X) :
  load panel target options w =
  (let '(r, (s, x)) :=
     panel_open panel target (or_empty options)
                (with_isLoading (VBool true) (feature w), outside w) in
   let tr := trace w ++ [EvPanelOpen target (or_empty options)] in
   match r with
   | Throw e => (Throw e, mkWorld s x tr)
   | Ok _ =>
       if nullish (or_empty options)
       then (Throw TypeError, mkWorld (with_isLoading (VBool false) s) x tr)
       else
         let s' := with_on (supplied (prop (or_empty options) "on") ∪ on s)
                           (with_isLoading (VBool false) s) in
         (Ok (state_of s'), mkWorld s' x tr)
   end).
Proof.
  unfold load. run.
  destruct (panel_open _ _ _ _) as [[r|e] [s x]]; simpl; [|done].
  unfold member. destruct (nullish (or_empty options)); run; [done|].
  by rewrite addEventListeners_run.
Qed.

Lemma post_run (val options : value) (w : World X) :
  truthy (path (feature w)) = true →
  post panel key val options w =
  (let v := coalesce (coalesce val (prop_opt (props (feature w)) "value"))
                     (VObj cls_Object ∅) in
   let sent := EvPanelPost (path (feature w)) v (or_empty options) in
   let '(r1, (s1, x1)) :=
     panel_post panel (path (feature w)) v (or_empty options)
                (with_isLoading (VBool true) (feature w), outside w) in
   match r1 with
   | Ok r => (Ok r, mkWorld (with_isLoading (VBool false) s1) x1 (trace w ++ [sent]))
   | Throw e1 =>
       let '(r2, (s2, x2)) := panel_notification_error panel e1 (s1, x1) in
       (match r2 with Ok _ => Ok (VBool false) | Throw e2 => Throw e2 end,
        mkWorld (with_isLoading (VBool false) s2) x2
                ((trace w ++ [sent]) ++ [EvNotificationError e1]))
   end).
Proof.
  intros Hpath. unfold post. run. rewrite Hpath. simpl.
  destruct (panel_post _ _ _ _ _) as [[r|e1] [s1 x1]]; simpl; [done|].
  by destruct (panel_notification_error _ _ _) as [[r|e2] [s2 x2]].
Qed.

(** ** load *)

(** X1: when [panel.open] throws, [load] throws the same error at once:
    the feature stays as [panel.open] left it, having been handed over
    with [isLoading] set to [true], and the listeners of the options
    are not registered. *)
Theorem load_rethrows (target options e : value) (w : World X) (s : State) (x : X) :
  panel_open panel target (or_empty options)
             (with_isLoading (VBool true) (feature w), outside w) = (Throw e, (s, x)) →
  load panel target options w =
    (Throw e, mkWorld s x (trace w ++ [EvPanelOpen target (or_empty options)])).
Proof. intros Hopen. by rewrite load_run, Hopen. Qed.

(** X2: when [panel.open] returns, its result is dropped: [load] sets
    [isLoading] to [false], stores the callable entries of [options.on]
    over the listeners [panel.open] left, changes no other field, and
    returns the snapshot of that state, after the one call of
    [panel.open]. *)
Theorem load_returns (target options r : value) (w : World X) (s : State) (x : X) :
  nullish (or_empty options) = false →
  panel_open panel target (or_empty options)
             (with_isLoading (VBool true) (feature w), outside w) = (Ok r, (s, x)) →
  let s' := with_on (supplied (prop (or_empty options) "on") ∪ on s)
                    (with_isLoading (VBool false) s) in
  load panel target options w =
    (Ok (state_of s'),
     mkWorld s' x (trace w ++ [EvPanelOpen target (or_empty options)])).
Proof. intros Hoptions Hopen. by rewrite load_run, Hopen, Hoptions. Qed.

(** X3: [load] does not take a function given as options for a submit
    listener (only [open] wraps it): after [load(url, f)] the listener
    map is the one [panel.open] left. *)
Theorem load_ignores_function_options (target r : value) (f : fname)
    (w : World X) (s : State) (x : X) :
  panel_open panel target (VFun f)
             (with_isLoading (VBool true) (feature w), outside w) = (Ok r, (s, x)) →
  let after := load panel target (VFun f) w in
  on (feature after.2) = on s ∧
  after.1 = Ok (state_of (with_isLoading (VBool false) s)).
Proof.
  intros Hopen after. subst after. rewrite load_run.
  change (or_empty (VFun f)) with (VFun f). rewrite Hopen.
  change (nullish (VFun f)) with false.
  change (supplied (prop (VFun f) "on")) with (∅ : gmap string value).
  cbv beta iota zeta. rewrite (left_id_L ∅ (∪)).
  split; [done|]. by destruct s.
Qed.

(** X4: [load(url, null)] fails late: [panel.open] has been called and
    has returned and [isLoading] is [false] again when reading
    [options.on] throws the [TypeError]. *)
Theorem load_null_options (target r : value) (w : World X) (s : State) (x : X) :
  panel_open panel target VNull
             (with_isLoading (VBool true) (feature w), outside w) = (Ok r, (s, x)) →
  load panel target VNull w =
    (Throw TypeError,
     mkWorld (with_isLoading (VBool false) s) x (trace w ++ [EvPanelOpen target VNull])).
Proof. intros Hopen. rewrite load_run. simpl or_empty. by rewrite Hopen. Qed.

(** ** open *)

Lemma open_literal_run (m : gmap string value) (options : value) (w : World X) :
  nullish (normalize (or_empty options)) = false →
  open panel apply parses_as_url (VObj cls_Object m) options w =
  (emit apply "open" [VObj cls_Object m; normalize (or_empty options)];; state)
    (addEventListeners (prop (normalize (or_empty options)) "on")
                       (set (VObj cls_Object m) w).2).2.
Proof.
  intros Hoptions. unfold open.
  change (isUrl parses_as_url (VObj cls_Object m)) with false. cbv iota.
  unfold member. rewrite Hoptions.
  unfold mbind, M_bind, mret, M_ret.
  rewrite set_run. cbv beta iota zeta. cbn [snd].
  by rewrite !addEventListeners_run.
Qed.

(** X5: [open] of a URL-like target with a function [f] as options,
    when [panel.open] returns, leaves [f] registered as the submit
    listener, whatever [panel.open] registered: [hasSubmitter] is true
    and [emit("submit", ...)] is the call of [f]. *)
Theorem open_url_with_submit (target r : value) (f : fname)
    (w : World X) (s : State) (x : X) :
  isUrl parses_as_url target = true →
  panel_open panel target (normalize (VFun f))
             (with_isLoading (VBool true) (feature w), outside w) = (Ok r, (s, x)) →
  let after := open panel apply parses_as_url target (VFun f) w in
  after.1 = Ok (state_of (feature after.2)) ∧
  on (feature after.2) !! "submit" = Some (VFun f) ∧
  hasSubmitter (feature after.2) = true ∧
  ∀ args, emit apply "submit" args after.2 = invoke apply f args after.2.
Proof.
  intros Hurl Hopen after.
  assert (Hafter : after =
    let s' := with_on (supplied (prop (normalize (VFun f)) "on") ∪ on s)
                      (with_isLoading (VBool false) s) in
    (Ok (state_of s'),
     mkWorld s' x (trace w ++ [EvPanelOpen target (normalize (VFun f))]))).
  { subst after. unfold open. rewrite Hurl.
    change (normalize (or_empty (VFun f))) with (normalize (VFun f)).
    rewrite load_run.
    change (or_empty (normalize (VFun f))) with (normalize (VFun f)).
    by rewrite Hopen. }
  assert (Hon : on (feature after.2) !! "submit" = Some (VFun f)).
  { rewrite Hafter. cbv zeta.
    change (on (feature (_, mkWorld ?s' _ _).2)) with (on s').
    apply (lookup_union_Some_l _ (on s)). reflexivity. }
  split; [by rewrite Hafter|]. split; [done|]. split.
  - apply hasSubmitter_true_of_listener. eauto.
  - intros args. by apply emit_registered.
Qed.

(** X6: [open] of a plain record with [null] as options fails half way:
    [set] has been applied to the record, nothing has been called, and
    the "open" event is not emitted when reading [options.on] throws
    the [TypeError]. *)
Theorem open_null_options (m : gmap string value) (w : World X) :
  let after := open panel apply parses_as_url (VObj cls_Object m) VNull w in
  after = (Throw TypeError, (set (VObj cls_Object m) w).2) ∧
  on (feature after.2) = supplied (prop (VObj cls_Object m) "on") ∧
  trace after.2 = trace w.
Proof.
  intros after.
  assert (Hafter : after = (Throw TypeError, (set (VObj cls_Object m) w).2)).
  { subst after. unfold open.
    change (isUrl parses_as_url (VObj cls_Object m)) with false. cbv iota.
    unfold mbind, M_bind. by rewrite set_run. }
  split; [done|]. rewrite Hafter. cbn [snd]. apply set_on.
Qed.

(** X7: when the "open" listener throws, [open] throws the same error;
    the state written by [set] and the listeners registered before the
    call of the listener are not taken back. *)
Theorem open_listener_throws (m : gmap string value) (options e : value)
    (f : fname) (w : World X) (s : State) (x : X) :
  let target := VObj cls_Object m in
  let options' := normalize (or_empty options) in
  let w2 := (addEventListeners (prop options' "on") (set target w).2).2 in
  nullish options' = false →
  on (feature w2) !! "open" = Some (VFun f) →
  behaviour apply f [target; options'] (feature w2, outside w2) = (Throw e, (s, x)) →
  open panel apply parses_as_url target options w =
    (Throw e, mkWorld s x (trace w ++ [EvCall f [target; options']])).
Proof.
  intros target options' w2 Hoptions Hon Hcall.
  assert (Htrace : trace w2 = trace w).
  { subst w2. rewrite addEventListeners_run. simpl. apply set_on. }
  subst target. rewrite open_literal_run by done. fold options' w2.
  unfold mbind, M_bind. rewrite (emit_registered _ _ f) by done.
  unfold invoke, external. rewrite Hcall. by rewrite Htrace.
Qed.

(** X8: without options and without a callable "open" entry in the
    record's [on], [open] of a plain record is [set] of that record:
    same state, same snapshot returned, nothing called. *)
Theorem open_is_set (m : gmap string value) (w : World X) :
  hasEventListener "open" (feature (set (VObj cls_Object m) w).2) = false →
  open panel apply parses_as_url (VObj cls_Object m) VUndefined w =
  set (VObj cls_Object m) w.
Proof.
  intros Hno. rewrite open_literal_run by done.
  change (normalize (or_empty VUndefined)) with (VObj cls_Object ∅).
  revert Hno. rewrite set_run. cbv zeta. cbn [snd]. intros Hno.
  rewrite addEventListeners_run.
  change (supplied (prop (VObj cls_Object ∅) "on")) with (∅ : gmap string value).
  cbn [snd feature outside trace]. rewrite (left_id_L ∅ (∪)), with_on_same.
  unfold mbind, M_bind. by rewrite emit_unregistered.
Qed.

(** ** post *)

(** X9: with a path that is set, when [panel.post] returns, [post]
    returns that result.  [panel.post] is called once, with the path,
    and finds [isLoading] set to [true]; afterwards [isLoading] is
    [false] and no other field is written by [post]. *)
Theorem post_returns (val options r : value) (w : World X) (s1 : State) (x1 : X) :
  let v := coalesce (coalesce val (prop_opt (props (feature w)) "value"))
                    (VObj cls_Object ∅) in
  truthy (path (feature w)) = true →
  panel_post panel (path (feature w)) v (or_empty options)
             (with_isLoading (VBool true) (feature w), outside w) = (Ok r, (s1, x1)) →
  post panel key val options w =
    (Ok r,
     mkWorld (with_isLoading (VBool false) s1) x1
             (trace w ++ [EvPanelPost (path (feature w)) v (or_empty options)])).
Proof.
  intros v Hpath Hpost. subst v. rewrite post_run by done. cbv zeta.
  by rewrite Hpost.
Qed.

(** X10: what [post] sends.  A value that is neither [null] nor
    [undefined] is sent as it is, also when it is falsy ([0], [""],
    [false]); without one, [props.value] is sent when [props] has one,
    and an empty record otherwise, also when [props] itself is [null]
    or [undefined]. *)
Theorem post_sends (val options : value) (w : World X) :
  truthy (path (feature w)) = true →
  ∃ sent rest,
    trace (post panel key val options w).2 =
      trace w ++ EvPanelPost (path (feature w)) sent (or_empty options) :: rest ∧
    (nullish val = false → sent = val) ∧
    (nullish val = true → nullish (props (feature w)) = false →
     nullish (prop (props (feature w)) "value") = false →
     sent = prop (props (feature w)) "value") ∧
    (nullish val = true → nullish (props (feature w)) = true →
     sent = VObj cls_Object ∅) ∧
    (nullish val = true → nullish (prop (props (feature w)) "value") = true →
     sent = VObj cls_Object ∅).
Proof.
  intros Hpath.
  exists (coalesce (coalesce val (prop_opt (props (feature w)) "value"))
                   (VObj cls_Object ∅)).
  assert (Hsent : ∀ sent, sent = coalesce (coalesce val (prop_opt (props (feature w)) "value"))
                                          (VObj cls_Object ∅) →
    (nullish val = false → sent = val) ∧
    (nullish val = true → nullish (props (feature w)) = false →
     nullish (prop (props (feature w)) "value") = false →
     sent = prop (props (feature w)) "value") ∧
    (nullish val = true → nullish (props (feature w)) = true →
     sent = VObj cls_Object ∅) ∧
    (nullish val = true → nullish (prop (props (feature w)) "value") = true →
     sent = VObj cls_Object ∅)).
  { intros sent ->. unfold coalesce, prop_opt.
    destruct (nullish val) eqn:Hval;
      destruct (nullish (props (feature w))) eqn:Hprops;
      destruct (nullish (prop (props (feature w)) "value")) eqn:Hvalue;
      simpl; rewrite ?Hval, ?Hvalue; repeat split; intros; congruence. }
  rewrite post_run by done. cbv zeta.
  destruct (panel_post _ _ _ _ _) as [[r|e1] [s1 x1]].
  - exists []. split; [done|]. by apply Hsent.
  - destruct (panel_notification_error _ _ _) as [r2 [s2 x2]].
    exists [EvNotificationError e1]. split; [by rewrite <- app_assoc|].
    by apply Hsent.
Qed.

(** X11: when [panel.post] throws and [panel.notification.error] throws
    in turn, [post] throws the second error; [isLoading] is [false]
    all the same. *)
Theorem post_notification_throws (val options e1 e2 : value) (w : World X)
    (s1 s2 : State) (x1 x2 : X) :
  let v := coalesce (coalesce val (prop_opt (props (feature w)) "value"))
                    (VObj cls_Object ∅) in
  truthy (path (feature w)) = true →
  panel_post panel (path (feature w)) v (or_empty options)
             (with_isLoading (VBool true) (feature w), outside w) = (Throw e1, (s1, x1)) →
  panel_notification_error panel e1 (s1, x1) = (Throw e2, (s2, x2)) →
  post panel key val options w =
    (Throw e2,
     mkWorld (with_isLoading (VBool false) s2) x2
             ((trace w ++ [EvPanelPost (path (feature w)) v (or_empty options)])
                ++ [EvNotificationError e1])).
Proof.
  intros v Hpath Hpost Hnotify. subst v. rewrite post_run by done. cbv zeta.
  by rewrite Hpost, Hnotify.
Qed.

(** X12: the calls of [post]: none with a falsy path; otherwise one
    call of [panel.post], followed by one call of
    [panel.notification.error] exactly when [panel.post] threw, with
    the error thrown.  [post] calls nothing else: no listener, no
    [panel.open], no [panel.get]. *)
Theorem post_calls (val options : value) (w : World X) :
  let after := post panel key val options w in
  (truthy (path (feature w)) = false ∧ trace after.2 = trace w) ∨
  (∃ v s1 x1,
     truthy (path (feature w)) = true ∧
     ((∃ r, panel_post panel (path (feature w)) v (or_empty options)
                       (with_isLoading (VBool true) (feature w), outside w)
            = (Ok r, (s1, x1)) ∧
            trace after.2 =
              trace w ++ [EvPanelPost (path (feature w)) v (or_empty options)]) ∨
      (∃ e, panel_post panel (path (feature w)) v (or_empty options)
                       (with_isLoading (VBool true) (feature w), outside w)
            = (Throw e, (s1, x1)) ∧
            trace after.2 =
              trace w ++ [EvPanelPost (path (feature w)) v (or_empty options);
                          EvNotificationError e]))).
Proof.
  intros after. subst after.
  destruct (truthy (path (feature w))) eqn:Hpath.
  - right. rewrite post_run by done. cbv zeta.
    set (v := coalesce _ _).
    destruct (panel_post _ _ _ _ _) as [[r|e1] [s1 x1]] eqn:Hpost.
    + exists v, s1, x1. split; [done|]. left. by exists r.
    + destruct (panel_notification_error _ _ _) as [r2 [s2 x2]].
      exists v, s1, x1. split; [done|]. right. exists e1.
      split; [done|]. by rewrite <- app_assoc.
  - left. split; [done|]. unfold post. run. by rewrite Hpath.
Qed.

(** ** refresh *)

Lemma refresh_run (options : value) (c : class) (m : gmap string value) (w : World X) :
  or_empty options = VObj c m →
  refresh panel key options w =
  (let given := prop (VObj c m) "url" in
   match (if nullish given then url panel (feature w) else Ok given) with
   | Throw e => (Throw e, w)
   | Ok target =>
       let request := VObj c (<["url" := target]> m) in
       let '(r, (s1, x1)) := panel_get panel target request (feature w, outside w) in
       let w1 := mkWorld s1 x1 (trace w ++ [EvPanelGet target request]) in
       match r with
       | Throw e => (Throw e, w1)
       | Ok response =>
           if nullish response then (Throw TypeError, w1)
           else
             let sub := prop response ("$" +:+ key) in
             if negb (truthy sub)
                || negb (strict_eq (prop sub "component") (component s1))
             then (Ok VUndefined, w1)
             else (Ok (state_of (with_props (prop sub "props") s1)),
                   mkWorld (with_props (prop sub "props") s1) x1 (trace w1))
       end
   end).
Proof.
  intros Hoptions. unfold refresh. rewrite Hoptions.
  unfold member at 1. simpl nullish. run.
  set (given := prop (VObj c m) "url").
  assert (Hrest : ∀ target,
    (let '(r, w') :=
       let '(r, (s, x)) :=
         panel_get panel target (VObj c (<["url" := target]> m)) (feature w, outside w) in
       (r, mkWorld s x (trace w ++ [EvPanelGet target (VObj c (<["url" := target]> m))])) in
     match r with
     | Ok a =>
         let (r0, w'0) := member a ("$" +:+ key) w' in
         match r0 with
         | Ok a0 =>
             (if negb (truthy a0)
                 || negb (strict_eq (prop a0 "component") (component (feature w'0)))
              then λ w0, (Ok VUndefined, w0)
              else λ w0,
                (Ok (state_of (with_props (prop a0 "props") (feature w0))),
                 mkWorld (with_props (prop a0 "props") (feature w0)) (outside w0) (trace w0)))
               w'0
         | Throw e => (Throw e, w'0)
         end
     | Throw e => (Throw e, w')
     end) =
    (let request := VObj c (<["url" := target]> m) in
     let '(r, (s1, x1)) := panel_get panel target request (feature w, outside w) in
     let w1 := mkWorld s1 x1 (trace w ++ [EvPanelGet target request]) in
     match r with
     | Throw e => (Throw e, w1)
     | Ok response =>
         if nullish response then (Throw TypeError, w1)
         else
           let sub := prop response ("$" +:+ key) in
           if negb (truthy sub)
              || negb (strict_eq (prop sub "component") (component s1))
           then (Ok VUndefined, w1)
           else (Ok (state_of (with_props (prop sub "props") s1)),
                 mkWorld (with_props (prop sub "props") s1) x1 (trace w1))
     end)).
  { intros target. cbv zeta.
    destruct (panel_get _ _ _ _) as [[response|e] [s1 x1]]; [|done].
    unfold member. destruct (nullish response); run; [done|].
    by destruct (negb _ || negb _). }
  destruct (nullish given).
  - unfold url. destruct (panel_url _ _ _) as [target|e]; simpl; [|done].
    apply Hrest.
  - simpl. apply Hrest.
Qed.

(** X13: a URL given as [options.url] is the URL requested, with the
    options as they are; [url()] is not consulted, so this holds for
    every panel, also when [panel.url] would throw.  Whatever becomes
    of the request, it is the only call [refresh] makes. *)
Theorem refresh_requests_given_url (options u : value) (c : class)
    (m : gmap string value) (w : World X) :
  or_empty options = VObj c m →
  m !! "url" = Some u →
  nullish u = false →
  trace (refresh panel key options w).2 = trace w ++ [EvPanelGet u (VObj c m)].
Proof.
  intros Hoptions Hurl Hnull. rewrite (refresh_run _ c m) by done.
  unfold prop. simpl own_fields. rewrite Hurl. simpl default. cbv zeta.
  rewrite Hnull, (insert_id m "url" u) by done.
  destruct (panel_get _ _ _ _) as [[response|e] [s1 x1]]; [|done].
  destruct (nullish response); [done|].
  by destruct (negb _ || negb _).
Qed.

(** X14: [refresh] can fail before any request is made, and then leaves
    the world as it was: with [null] as options a [TypeError] is
    thrown, and when the options name no URL and [url()] throws, that
    error is thrown. *)
Theorem refresh_fails_before_request (options : value) (w : World X) :
  refresh panel key VNull w = (Throw TypeError, w) ∧
  ∀ c m e,
    or_empty options = VObj c m →
    nullish (prop (VObj c m) "url") = true →
    url panel (feature w) = Throw e →
    refresh panel key options w = (Throw e, w).
Proof.
  split; [done|]. intros c m e Hoptions Hgiven Hurl.
  rewrite (refresh_run _ c m) by done. cbv zeta. by rewrite Hgiven, Hurl.
Qed.

(** X15: when [panel.get] throws, [refresh] throws the same error, and
    when the response is [null] or [undefined], reading its "$" + key
    field throws a [TypeError]; in both cases no field of the feature
    is written after the request. *)
Theorem refresh_request_fails (options target : value) (c : class)
    (m : gmap string value) (w : World X) :
  let given := prop (VObj c m) "url" in
  let request := VObj c (<["url" := target]> m) in
  or_empty options = VObj c m →
  (if nullish given then url panel (feature w) else Ok given) = Ok target →
  (∀ e s1 x1,
     panel_get panel target request (feature w, outside w) = (Throw e, (s1, x1)) →
     refresh panel key options w =
       (Throw e, mkWorld s1 x1 (trace w ++ [EvPanelGet target request]))) ∧
  (∀ response s1 x1,
     panel_get panel target request (feature w, outside w) = (Ok response, (s1, x1)) →
     nullish response = true →
     refresh panel key options w =
       (Throw TypeError, mkWorld s1 x1 (trace w ++ [EvPanelGet target request]))).
Proof.
  intros given request Hoptions Htarget. subst given request. split.
  - intros e s1 x1 Hget. rewrite (refresh_run _ c m) by done. cbv zeta.
    by rewrite Htarget, Hget.
  - intros response s1 x1 Hget Hnull. rewrite (refresh_run _ c m) by done. cbv zeta.
    by rewrite Htarget, Hget, Hnull.
Qed.

(** X16: a response whose "$" + key record has the feature's component
    but no [props] entry is applied all the same: [props] becomes
    [undefined]; the old props are not kept. *)
Theorem refresh_erases_props (options target : value) (c rc sc : class)
    (m fields st : gmap string value) (w : World X) (s1 : State) (x1 : X) :
  let given := prop (VObj c m) "url" in
  let request := VObj c (<["url" := target]> m) in
  or_empty options = VObj c m →
  (if nullish given then url panel (feature w) else Ok given) = Ok target →
  panel_get panel target request (feature w, outside w) = (Ok (VObj rc fields), (s1, x1)) →
  fields !! ("$" +:+ key) = Some (VObj sc st) →
  strict_eq (prop (VObj sc st) "component") (component s1) = true →
  st !! "props" = None →
  props (feature (refresh panel key options w).2) = VUndefined.
Proof.
  intros given request Hoptions Htarget Hget Hsub Heq Hprops.
  subst given request. rewrite (refresh_run _ c m) by done. cbv zeta.
  assert (Hp : prop (VObj rc fields) ("$" +:+ key) = VObj sc st).
  { unfold prop. simpl own_fields. by rewrite Hsub. }
  assert (Hq : prop (VObj sc st) "props" = VUndefined).
  { unfold prop. simpl own_fields. by rewrite Hprops. }
  rewrite Htarget, Hget. change (nullish (VObj rc fields)) with false. cbv iota.
  rewrite Hp, Heq, Hq. reflexivity.
Qed.

(** X17: [refresh] makes at most one call, a [panel.get], and of the
    feature's fields it writes [props] at most: either the world is the
    one before the call, or one request was made and the feature is as
    the request left it, but for [props]. *)
Theorem refresh_frame (options : value) (w : World X) :
  let after := refresh panel key options w in
  after.2 = w ∨
  ∃ target request r s1 x1,
    panel_get panel target request (feature w, outside w) = (r, (s1, x1)) ∧
    trace after.2 = trace w ++ [EvPanelGet target request] ∧
    outside after.2 = x1 ∧
    (feature after.2 = s1 ∨ ∃ p, feature after.2 = with_props p s1).
Proof.
  intros after. subst after.
  assert (Hobj : ∀ c m, or_empty options = VObj c m →
    (refresh panel key options w).2 = w ∨
    ∃ target request r s1 x1,
      panel_get panel target request (feature w, outside w) = (r, (s1, x1)) ∧
      trace (refresh panel key options w).2 = trace w ++ [EvPanelGet target request] ∧
      outside (refresh panel key options w).2 = x1 ∧
      (feature (refresh panel key options w).2 = s1 ∨
       ∃ p, feature (refresh panel key options w).2 = with_props p s1)).
  { intros c m Hoptions. rewrite (refresh_run _ c m) by done. cbv zeta.
    destruct (if nullish _ then _ else _) as [target|e]; [|by left].
    right. exists target, (VObj c (<["url" := target]> m)).
    destruct (panel_get _ _ _ _) as [[response|e] [s1 x1]].
    - exists (Ok response), s1, x1. split; [done|].
      destruct (nullish response); [by repeat split; try left|].
      destruct (negb _ || negb _); [by repeat split; try left|].
      repeat split. right. by eexists.
    - exists (Throw e), s1, x1. by repeat split; try left. }
  assert (Hprim : ∀ v, prop v "url" = VUndefined →
    (∀ t, set_member (X := X) v "url" t = throw TypeError) →
    nullish v = false → or_empty v = v →
    (refresh panel key v w).2 = w).
  { intros v Hprop Hset Hnull Hv. unfold refresh, member, url.
    rewrite Hv, Hnull, Hprop. run.
    destruct (panel_url _ _ _) as [target|e]; simpl; [|done].
    by rewrite Hset. }
  destruct options as [| |b|n|t|f|c m]; try (by left).
  - by apply (Hobj cls_Object ∅).
  - left. by apply Hprim.
  - left. by apply Hprim.
  - left. by apply Hprim.
  - unfold refresh, url, member. change (or_empty (VFun f)) with (VFun f).
    change (nullish (VFun f)) with false.
    change (prop (VFun f) "url") with VUndefined. run.
    destruct (panel_url _ _ _) as [target|e]; simpl; [|by left].
    right. exists target, (VFun f).
    destruct (panel_get _ _ _ _) as [[response|e] [s1 x1]].
    + exists (Ok response), s1, x1. split; [done|].
      destruct (nullish response); run; [by repeat split; try left|].
      destruct (negb _ || negb _); [by repeat split; try left|].
      repeat split. right. by eexists.
    + exists (Throw e), s1, x1. by repeat split; try left.
  - by apply (Hobj c m).
Qed.

(** ** reload *)

(** X18: a reload that fails is silent.  With a path that is set and a
    URL-like result of [url()], when [panel.open] throws, [reload]
    still returns [undefined]: the error does not reach the caller and
    the feature stays as the failed [panel.open] left it, handed over
    with [isLoading] set to [true]. *)
Theorem reload_hides_failure (options target e : value) (w : World X)
    (s : State) (x : X) :
  let options' := normalize (or_empty options) in
  truthy (path (feature w)) = true →
  url panel (feature w) = Ok target →
  isUrl parses_as_url target = true →
  panel_open panel target options'
             (with_isLoading (VBool true) (feature w), outside w) = (Throw e, (s, x)) →
  reload panel apply parses_as_url options w =
    (Ok VUndefined, mkWorld s x (trace w ++ [EvPanelOpen target options'])).
Proof.
  intros options' Hpath Hurl Hlike Hopen. subst options'.
  assert (Hidem : or_empty (or_empty options) = or_empty options) by by destruct options.
  assert (Hnorm : or_empty (normalize (or_empty options)) = normalize (or_empty options))
    by by destruct options.
  unfold reload. run. rewrite Hpath, Hurl. simpl.
  unfold open. rewrite Hlike, Hidem, load_run, Hnorm, Hopen. reflexivity.
Qed.

(** X19: when [url()] throws, [reload] throws the same error before
    [open] is called: the world is the one before the call. *)
Theorem reload_url_throws (options e : value) (w : World X) :
  truthy (path (feature w)) = true →
  url panel (feature w) = Throw e →
  reload panel apply parses_as_url options w = (Throw e, w).
Proof.
  intros Hpath Hurl. unfold reload. run. by rewrite Hpath, Hurl.
Qed.

(** ** addEventListeners and emit, again *)

(** X20: registering the same listeners twice is registering them
    once. *)
Theorem addEventListeners_idempotent (listeners : value) (w : World X) :
  addEventListeners listeners (addEventListeners listeners w).2 =
  addEventListeners listeners w.
Proof.
  rewrite !addEventListeners_run. cbn [snd feature outside trace on with_on].
  f_equal. f_equal.
  rewrite (assoc_L (∪)), (idemp_L (∪)). by destruct (feature w).
Qed.

(** X21: [addEventListeners] never takes a listener away: an event that
    had a listener has one afterwards, so a feature that could be
    submitted still can. *)
Theorem addEventListeners_keeps_listeners (listeners : value) (w : World X) :
  let after := (addEventListeners listeners w).2 in
  (∀ event, hasEventListener event (feature w) = true →
            hasEventListener event (feature after) = true) ∧
  (hasSubmitter (feature w) = true → hasSubmitter (feature after) = true).
Proof.
  intros after.
  assert (Hkeep : ∀ event, hasEventListener event (feature w) = true →
                           hasEventListener event (feature after) = true).
  { intros event Hhas. subst after. revert Hhas.
    rewrite addEventListeners_run. cbn [snd feature on with_on].
    unfold hasEventListener, lookup_plain.
    change (on (with_on ?m _)) with m.
    destruct (supplied listeners !! event) as [v|] eqn:Hv.
    - pose proof (supplied_listeners_callable listeners event v Hv) as Hfun.
      intros _. by rewrite (lookup_union_Some_l _ _ _ _ Hv).
    - by rewrite lookup_union_r. }
  split; [done|]. unfold hasSubmitter.
  destruct (hasEventListener "submit" (feature w)) eqn:Hs.
  - intros _. by rewrite (Hkeep "submit" Hs).
  - assert (Hpath : path (feature after) = path (feature w)).
    { subst after. by rewrite addEventListeners_run. }
    rewrite Hpath. by destruct (hasEventListener "submit" (feature after)).
Qed.


End Properties.

(** ** The theorems at concrete worlds *)

Lemma post_without_path_example :
  truthy (path (feature fresh)) = false ∧
  ∃ message,
    post idle_panel "dialog" VUndefined VUndefined fresh = (Throw (Error message), fresh) ∧
    prop (Error message) "message" = VStr message ∧
    contains "dialog" message ∧
    (isLoading (feature fresh) = VBool false →
     isLoading (feature (post idle_panel "dialog" VUndefined VUndefined fresh).2) = VBool false).
Proof.
  split; [reflexivity|].
  apply (post_without_path idle_panel "dialog" VUndefined VUndefined fresh).
  reflexivity.
Defined.

Lemma post_transport_failure_example :
  truthy (path (feature (fresh_at (VStr "/x")))) = true ∧
  post failing_panel "dialog" VUndefined VUndefined (fresh_at (VStr "/x")) =
    (Ok (VBool false),
     mkWorld (feature (fresh_at (VStr "/x"))) ()
       [EvPanelPost (VStr "/x") (VObj cls_Object ∅) (VObj cls_Object ∅);
        EvNotificationError (Error "offline")]).
Proof.
  split; [reflexivity|].
  destruct (post_transport_failure failing_panel "dialog" VUndefined VUndefined
              (fresh_at (VStr "/x")) eq_refl) as [Hcaught _].
  exact (Hcaught (Error "offline") _ () VUndefined _ () eq_refl eq_refl).
Defined.

Lemma refresh_response_example :
  let w := showing (VStr "k-text-dialog") in
  let target := VObj cls_URL {[ "pathname" := VNull ]} in
  let request := record [ ("url", target) ] in
  (or_empty VUndefined = VObj cls_Object ∅ ∧
   url (answering_panel dialog_response) (feature w) = Ok target ∧
   own_fields dialog_response !! "$dialog" = Some text_dialog ∧
   strict_eq (prop text_dialog "component") (component (feature w)) = true) ∧
  refresh (answering_panel dialog_response) "dialog" VUndefined w =
    (Ok (state_of (with_props (record [ ("text", VStr "Saved") ]) (feature w))),
     mkWorld (with_props (record [ ("text", VStr "Saved") ]) (feature w)) ()
             [EvPanelGet target request]).
Proof.
  split; [by repeat split|].
  destruct (refresh_response (answering_panel dialog_response) "dialog" VUndefined
              (showing (VStr "k-text-dialog")) cls_Object cls_Object ∅
              (own_fields dialog_response)
              (VObj cls_URL {[ "pathname" := VNull ]})
              (feature (showing (VStr "k-text-dialog"))) ()
              eq_refl eq_refl eq_refl) as (_ & _ & Happlied).
  destruct (Happlied cls_Object (own_fields text_dialog) eq_refl eq_refl) as [Hrun _].
  exact Hrun.
Defined.

Lemma addEventListeners_registers_example :
  let w := listening {[ "close" := VFun (named "closed") ]} in
  let w1 := (addEventListeners (record [ ("submit", VFun (named "first")) ]) w).2 in
  let w2 := (addEventListeners (record [ ("submit", VFun (named "second")) ]) w1).2 in
  isObject (VStr "submit") = false ∧
  addEventListeners (VStr "submit") w = (Ok VUndefined, w) ∧
  emit echo "submit" [VNum 7] w2 = invoke echo (named "second") [VNum 7] w2 ∧
  trace (emit echo "submit" [VNum 7] w2).2 = [EvCall (named "second") [VNum 7]].
Proof.
  intros w w1 w2.
  destruct (addEventListeners_registers echo (VStr "submit") w)
    as (Hskip & _ & Hlast).
  destruct (Hlast (named "first") (named "second") [VNum 7]) as [Hemit Htrace].
  split; [reflexivity|]. split; [exact (Hskip eq_refl)|].
  split; [exact Hemit|exact Htrace].
Defined.

Lemma emit_dispatch_example :
  let w := listening {[ "submit" := VFun (named "save") ]} in
  (on (feature w) !! "submit" = Some (VFun (named "save")) ∧
   hasEventListener "close" (feature w) = false) ∧
  emit echo "submit" [VNum 7; VNull] w =
    (Ok (VNum 7), mkWorld (feature w) () [EvCall (named "save") [VNum 7; VNull]]) ∧
  emit echo "close" [VNum 7] w = (Ok (VFun dummy_listener), w).
Proof.
  intros w. split; [by split|]. split.
  - destruct (emit_dispatch echo "submit" [VNum 7; VNull] w) as (Hcall & _ & _).
    exact (Hcall (named "save") eq_refl).
  - destruct (emit_dispatch echo "close" [VNum 7] w) as (_ & Hnone & _).
    exact (Hnone eq_refl).
Defined.

Lemma open_paths_example :
  let w := listening {[ "submit" := VFun (named "save") ]} in
  let after := open idle_panel echo (λ _, true) page_dialog VUndefined w in
  (nullish (normalize (or_empty VUndefined)) = false ∧
   isUrl (λ _, true) page_dialog = false) ∧
  trace after.2 = [EvCall (named "opened") [page_dialog; VObj cls_Object ∅]] ∧
  on (feature after.2) = {[ "open" := VFun (named "opened") ]} ∧
  hasEventListener "submit" (feature after.2) = false ∧
  after.1 = Ok (state_of (feature after.2)).
Proof.
  intros w after. split; [by split|].
  destruct (open_paths idle_panel echo (λ _, true) page_dialog VUndefined w)
    as (_ & _ & Hliteral).
  destruct (Hliteral _ eq_refl eq_refl) as (_ & _ & _ & Hcalled & _).
  destruct (Hcalled (named "opened") eq_refl) as [Htrace Hreturn].
  split; [exact Htrace|].
  subst after. rewrite (Hreturn _ _ _ eq_refl). by repeat split.
Defined.

Lemma reload_paths_example :
  let w := fresh_at (VStr "/x") in
  let target := VObj cls_URL {[ "pathname" := VStr "/x" ]} in
  (truthy (path (feature fresh)) = false ∧
   truthy (path (feature w)) = true ∧
   url idle_panel (feature w) = Ok target ∧
   isUrl (λ _, true) target = true) ∧
  reload idle_panel echo (λ _, true) VUndefined fresh = (Ok (VBool false), fresh) ∧
  (reload idle_panel echo (λ _, true) VUndefined w).1 = Ok VUndefined ∧
  trace (reload idle_panel echo (λ _, true) VUndefined w).2 =
    [EvPanelOpen target (VObj cls_Object ∅)].
Proof.
  intros w target. split; [by repeat split|].
  destruct (reload_paths idle_panel echo (λ _, true) VUndefined fresh) as [Hnoop _].
  destruct (reload_paths idle_panel echo (λ _, true) VUndefined w) as [_ Hopen].
  destruct (Hopen target eq_refl eq_refl) as [Hrun Hload].
  destruct (Hload eq_refl) as [_ Htrace].
  split; [exact (Hnoop eq_refl)|]. split; [by rewrite Hrun|exact Htrace].
Defined.

Lemma listeners_stay_callable_example :
  let calls :=
    [ CallSet (record [ ("on", record [ ("submit", VFun (named "save")); ("close", VNum 0) ]) ]);
      CallAddEventListeners (record [ ("open", VStr "no function"); ("cancel", VFun (named "cancel")) ]);
      CallOpen page_dialog (VFun (named "submit"));
      CallLoad (VStr "/dialogs/page") VNull ] in
  let w := perform_all idle_panel echo (λ _, true) calls fresh in
  ((∀ target options, keeps_listeners_callable (panel_open idle_panel target options)) ∧
   (∀ id args, keeps_listeners_callable (echo id args))) ∧
  listeners_callable (on (feature w)) ∧
  ∀ event v, on (feature w) !! event = Some v → ∃ f, v = VFun f.
Proof.
  intros calls w.
  assert (Hopen : ∀ target options,
             keeps_listeners_callable (panel_open idle_panel target options)).
  { intros target options e He. exact He. }
  assert (Hecho : ∀ id args, keeps_listeners_callable (echo id args)).
  { intros id args e He. exact He. }
  split; [by split|].
  exact (listeners_stay_callable idle_panel echo (λ _, true) calls () Hopen Hecho).
Defined.

(** ** Further properties at concrete worlds *)

Lemma load_rethrows_example :
  load broken_panel (VStr "/dialogs/page") VUndefined fresh =
    (Throw (Error "offline"),
     mkWorld (with_isLoading (VBool true) defaults) ()
             [EvPanelOpen (VStr "/dialogs/page") (VObj cls_Object ∅)]).
Proof.
  exact (load_rethrows broken_panel (VStr "/dialogs/page") VUndefined
           (Error "offline") fresh _ () eq_refl).
Defined.

Lemma load_returns_example :
  let options :=
    record [ ("on", record [ ("submit", VFun (named "save")); ("close", VNum 0) ]) ] in
  let w := listening {[ "close" := VFun (named "closed") ]} in
  let after := load idle_panel (VStr "/dialogs/page") options w in
  nullish (or_empty options) = false ∧
  on (feature after.2) =
    {[ "submit" := VFun (named "save"); "close" := VFun (named "closed") ]} ∧
  isLoading (feature after.2) = VBool false ∧
  after.1 = Ok (state_of (feature after.2)) ∧
  trace after.2 = [EvPanelOpen (VStr "/dialogs/page") options].
Proof.
  intros options w after. split; [reflexivity|].
  subst after.
  rewrite (load_returns idle_panel (VStr "/dialogs/page") options VUndefined w
             (with_isLoading (VBool true) (feature w)) () eq_refl eq_refl).
  cbv zeta. repeat split.
Defined.

Lemma load_ignores_function_options_example :
  let after := load idle_panel (VStr "/dialogs/page") (VFun (named "save")) fresh in
  on (feature after.2) = ∅ ∧
  hasSubmitter (feature after.2) = false ∧
  after.1 = Ok (state_of defaults).
Proof.
  intros after.
  destruct (load_ignores_function_options idle_panel (VStr "/dialogs/page") VUndefined
              (named "save") fresh (with_isLoading (VBool true) defaults) () eq_refl)
    as [Hon Hreturn].
  split; [exact Hon|]. split; [reflexivity|exact Hreturn].
Defined.

Lemma load_null_options_example :
  load idle_panel (VStr "/dialogs/page") VNull fresh =
    (Throw TypeError,
     mkWorld defaults () [EvPanelOpen (VStr "/dialogs/page") VNull]).
Proof.
  exact (load_null_options idle_panel (VStr "/dialogs/page") VUndefined fresh
           (with_isLoading (VBool true) defaults) () eq_refl).
Defined.

Lemma open_url_with_submit_example :
  let after := open idle_panel echo (λ _, true) (VStr "/dialogs/page")
                    (VFun (named "save")) fresh in
  isUrl (λ _, true) (VStr "/dialogs/page") = true ∧
  on (feature after.2) !! "submit" = Some (VFun (named "save")) ∧
  hasSubmitter (feature after.2) = true ∧
  emit echo "submit" [VNum 7] after.2 = invoke echo (named "save") [VNum 7] after.2.
Proof.
  intros after. split; [reflexivity|].
  destruct (open_url_with_submit idle_panel echo (λ _, true) (VStr "/dialogs/page")
              VUndefined (named "save") fresh
              (with_isLoading (VBool true) defaults) () eq_refl eq_refl)
    as (_ & Hon & Hsubmit & Hemit).
  split; [exact Hon|]. split; [exact Hsubmit|exact (Hemit [VNum 7])].
Defined.

Lemma open_null_options_example :
  let w := listening {[ "submit" := VFun (named "save") ]} in
  open idle_panel echo (λ _, true) page_dialog VNull w =
    (Throw TypeError, (set page_dialog w).2) ∧
  on (feature (open idle_panel echo (λ _, true) page_dialog VNull w).2) =
    {[ "open" := VFun (named "opened") ]} ∧
  trace (open idle_panel echo (λ _, true) page_dialog VNull w).2 = [].
Proof.
  intros w.
  destruct (open_null_options idle_panel echo (λ _, true) (own_fields page_dialog) w)
    as (Hthrow & Hon & Htrace).
  split; [exact Hthrow|]. split; [exact Hon|exact Htrace].
Defined.

Lemma open_listener_throws_example :
  let w := listening {[ "submit" := VFun (named "save") ]} in
  let after := open idle_panel throwing (λ _, true) page_dialog VUndefined w in
  after.1 = Throw (Error "listener failed") ∧
  component (feature after.2) = VStr "k-page-dialog" ∧
  on (feature after.2) = {[ "open" := VFun (named "opened") ]} ∧
  trace after.2 = [EvCall (named "opened") [page_dialog; VObj cls_Object ∅]].
Proof.
  intros w after.
  assert (Hafter : after = _) by
    exact (open_listener_throws idle_panel throwing (λ _, true)
             (own_fields page_dialog) VUndefined (Error "listener failed")
             (named "opened") w _ () eq_refl eq_refl eq_refl).
  rewrite Hafter. by repeat split.
Defined.

Lemma open_is_set_example :
  let w := listening {[ "submit" := VFun (named "save") ]} in
  hasEventListener "open" (feature (set text_dialog w).2) = false ∧
  open idle_panel echo (λ _, true) text_dialog VUndefined w = set text_dialog w.
Proof.
  intros w. split; [reflexivity|].
  exact (open_is_set idle_panel echo (λ _, true) (own_fields text_dialog) w eq_refl).
Defined.

Lemma post_returns_example :
  truthy (path (feature (fresh_at (VStr "/x")))) = true ∧
  post idle_panel "dialog" (VStr "title") VUndefined (fresh_at (VStr "/x")) =
    (Ok VUndefined,
     mkWorld (feature (fresh_at (VStr "/x"))) ()
             [EvPanelPost (VStr "/x") (VStr "title") (VObj cls_Object ∅)]).
Proof.
  split; [reflexivity|].
  exact (post_returns idle_panel "dialog" (VStr "title") VUndefined VUndefined
           (fresh_at (VStr "/x")) _ () eq_refl eq_refl).
Defined.

Lemma post_sends_example :
  let w := fresh_at (VStr "/x") in
  truthy (path (feature w)) = true ∧
  nullish (VNum 0) = false ∧
  ∃ rest,
    trace (post idle_panel "dialog" (VNum 0) VUndefined w).2 =
      trace w ++ EvPanelPost (VStr "/x") (VNum 0) (VObj cls_Object ∅) :: rest.
Proof.
  intros w. split; [reflexivity|]. split; [reflexivity|].
  destruct (post_sends idle_panel "dialog" (VNum 0) VUndefined w eq_refl)
    as (sent & rest & Htrace & Hval & _).
  exists rest. rewrite (Hval eq_refl) in Htrace. exact Htrace.
Defined.

Lemma post_notification_throws_example :
  truthy (path (feature (fresh_at (VStr "/x")))) = true ∧
  post broken_panel "dialog" VUndefined VUndefined (fresh_at (VStr "/x")) =
    (Throw (Error "offline"),
     mkWorld (feature (fresh_at (VStr "/x"))) ()
             [EvPanelPost (VStr "/x") (VObj cls_Object ∅) (VObj cls_Object ∅);
              EvNotificationError (Error "offline")]).
Proof.
  split; [reflexivity|].
  exact (post_notification_throws broken_panel "dialog" VUndefined VUndefined
           (Error "offline") (Error "offline") (fresh_at (VStr "/x"))
           _ _ () () eq_refl eq_refl eq_refl).
Defined.

Lemma refresh_requests_given_url_example :
  let options := record [ ("url", VStr "/dialogs/other") ] in
  or_empty options = options ∧
  own_fields options !! "url" = Some (VStr "/dialogs/other") ∧
  trace (refresh urlless_panel "dialog" options fresh).2 =
    [EvPanelGet (VStr "/dialogs/other") options].
Proof.
  intros options. split; [reflexivity|]. split; [reflexivity|].
  exact (refresh_requests_given_url urlless_panel "dialog" options
           (VStr "/dialogs/other") cls_Object (own_fields options) fresh
           eq_refl eq_refl eq_refl).
Defined.

Lemma refresh_fails_before_request_example :
  refresh urlless_panel "dialog" VNull fresh = (Throw TypeError, fresh) ∧
  url urlless_panel (feature fresh) = Throw TypeError ∧
  refresh urlless_panel "dialog" VUndefined fresh = (Throw TypeError, fresh).
Proof.
  destruct (refresh_fails_before_request urlless_panel "dialog" VUndefined fresh)
    as [Hnull Hurl].
  split; [exact Hnull|]. split; [reflexivity|].
  exact (Hurl cls_Object ∅ TypeError eq_refl eq_refl eq_refl).
Defined.

Lemma refresh_request_fails_example :
  let target := VObj cls_URL {[ "pathname" := VNull ]} in
  let request := record [ ("url", target) ] in
  refresh broken_panel "dialog" VUndefined fresh =
    (Throw (Error "offline"), mkWorld defaults () [EvPanelGet target request]) ∧
  refresh (answering_panel VNull) "dialog" VUndefined fresh =
    (Throw TypeError, mkWorld defaults () [EvPanelGet target request]).
Proof.
  intros target request. split.
  - destruct (refresh_request_fails broken_panel "dialog" VUndefined target
                cls_Object ∅ fresh eq_refl eq_refl) as [Hthrow _].
    exact (Hthrow (Error "offline") defaults () eq_refl).
  - destruct (refresh_request_fails (answering_panel VNull) "dialog" VUndefined target
                cls_Object ∅ fresh eq_refl eq_refl) as [_ Hnull].
    exact (Hnull VNull defaults () eq_refl eq_refl).
Defined.

Lemma refresh_erases_props_example :
  let w := mkWorld (with_props (record [ ("text", VStr "Saved") ])
                      (feature (showing (VStr "k-text-dialog")))) () [] in
  props (feature w) = record [ ("text", VStr "Saved") ] ∧
  props (feature (refresh (answering_panel bare_response) "dialog" VUndefined w).2)
    = VUndefined.
Proof.
  intros w. split; [reflexivity|].
  exact (refresh_erases_props (answering_panel bare_response) "dialog" VUndefined
           (VObj cls_URL {[ "pathname" := VNull ]})
           cls_Object cls_Object cls_Object ∅ (own_fields bare_response)
           {[ "component" := VStr "k-text-dialog" ]} w (feature w) ()
           eq_refl eq_refl eq_refl eq_refl eq_refl eq_refl).
Defined.

Lemma reload_hides_failure_example :
  let w := fresh_at (VStr "/x") in
  let target := VObj cls_URL {[ "pathname" := VStr "/x" ]} in
  truthy (path (feature w)) = true ∧
  reload broken_panel echo (λ _, true) VUndefined w =
    (Ok VUndefined,
     mkWorld (with_isLoading (VBool true) (feature w)) ()
             [EvPanelOpen target (VObj cls_Object ∅)]).
Proof.
  intros w target. split; [reflexivity|].
  exact (reload_hides_failure broken_panel echo (λ _, true) VUndefined target
           (Error "offline") w _ () eq_refl eq_refl eq_refl eq_refl).
Defined.

Lemma reload_url_throws_example :
  let w := fresh_at (VStr "/x") in
  truthy (path (feature w)) = true ∧
  url urlless_panel (feature w) = Throw TypeError ∧
  reload urlless_panel echo (λ _, true) VUndefined w = (Throw TypeError, w).
Proof.
  intros w. split; [reflexivity|]. split; [reflexivity|].
  exact (reload_url_throws urlless_panel echo (λ _, true) VUndefined TypeError w
           eq_refl eq_refl).
Defined.


(** * The date field *)

Section DateFieldProperties.

Import DateField.

Context {Dayjs : Type}.
Variable dayjs_iso : value → option Dayjs.
Variable toISO : Dayjs → option string → value.
Variable today : Dayjs.
Variable plus : value → value → value.

Lemma truthy_not_null (v : value) : truthy v = true → strict_eq v VNull = false.
Proof. by destruct v. Qed.

Lemma isEmpty_with_date (d : Data) :
  strict_eq (iso_date d) VNull = false → truthy (isEmpty d) = false.
Proof.
  intros Hdate. unfold DateField.isEmpty, and_then. rewrite Hdate. simpl.
  by destruct (truthy (time d)).
Qed.

Lemma onInput_with_both (d : Data) :
  strict_eq (iso_date d) VNull = false →
  strict_eq (iso_time d) VNull = false →
  onInput dayjs_iso toISO plus d =
    [("input",
      [coalesce (toISO_opt toISO
                   (dayjs_iso (plus (plus (iso_date d) (VStr " ")) (iso_time d))) None)
                (VStr "")])].
Proof.
  intros Hdate Htime. unfold DateField.onInput.
  rewrite isEmpty_with_date by done. rewrite Hdate, Htime. simpl.
  by rewrite andb_false_r.
Qed.

Lemma onInput_empty (d : Data) :
  iso_date d = VNull →
  truthy (time d) = false ∨ truthy (iso_time d) = true →
  onInput dayjs_iso toISO plus d = [("input", [VStr ""])].
Proof.
  intros Hdate Hcase. unfold DateField.onInput, DateField.isEmpty, and_then.
  rewrite Hdate. simpl.
  destruct (truthy (time d)); [|done].
  destruct Hcase as [Hno|Hset]; [done|]. by rewrite Hset.
Qed.

(** X23: [onInput] on a field without a date.  A field without time
    emits the empty string.  A field with time emits the empty string
    when a time is set, since [isEmpty] then asks for a date that is
    [null] and a time that is truthy; with the time [null] as well the
    field does not count as empty and, the two nulls not parsing,
    nothing is emitted. *)
Theorem onInput_without_date (d : Data) :
  iso_date d = VNull →
  (truthy (time d) = false →
   onInput dayjs_iso toISO plus d = [("input", [VStr ""])]) ∧
  (truthy (time d) = true → truthy (iso_time d) = true →
   onInput dayjs_iso toISO plus d = [("input", [VStr ""])]) ∧
  (truthy (time d) = true → iso_time d = VNull →
   dayjs_iso (plus (plus VNull (VStr " ")) VNull) = None →
   onInput dayjs_iso toISO plus d = []).
Proof.
  intros Hdate. split; [|split].
  - intros Htime. apply onInput_empty; auto.
  - intros _ Hset. apply onInput_empty; auto.
  - unfold DateField.onInput, DateField.isEmpty, and_then.
    rewrite Hdate. intros -> -> ->. reflexivity.
Qed.

(** X24: a date picked in the date input is always announced: for a
    truthy value, [onDateInput] stores it, fills in a missing time
    with the present time of day (midnight for a field without time),
    and emits exactly one "input" event, with the ISO string of the
    date and time parsed together, or the empty string when they do not
    parse. *)
Theorem onDateInput_emits_once (v : value) (d : Data) :
  let filled :=
    if truthy (iso_time d) then iso_time d
    else if truthy (time d) then toISO today (Some "time") else VStr "00:00:00" in
  truthy v = true →
  strict_eq (toISO today (Some "time")) VNull = false →
  onDateInput dayjs_iso toISO today plus v d =
    (mkData (time d) v filled,
     [("input",
       [coalesce (toISO_opt toISO (dayjs_iso (plus (plus v (VStr " ")) filled)) None)
                 (VStr "")])]).
Proof.
  intros filled Hv Hnow. unfold DateField.onDateInput. rewrite Hv. simpl.
  assert (Hfilled : strict_eq filled VNull = false).
  { subst filled. destruct (truthy (iso_time d)) eqn:Ht.
    - by apply truthy_not_null.
    - by destruct (truthy (time d)). }
  assert (Hdata :
    (if negb (truthy (iso_time d))
     then mkData (time d) (iso_date d) (prop (now toISO today d) "time")
     else d) = mkData (time d) (iso_date d) filled).
  { subst filled. destruct (truthy (iso_time d)); simpl; [by destruct d|].
    unfold DateField.now. by destruct (truthy (time d)). }
  rewrite Hdata. cbn [time iso_date iso_time]. f_equal.
  rewrite onInput_with_both; [done| |done]. by apply truthy_not_null.
Qed.

(** X25: clearing the date, [onDateInput(null)], keeps the time part
    and emits the empty string when the field has no time or a time is
    set. *)
Theorem onDateInput_clears (d : Data) :
  truthy (time d) = false ∨ truthy (iso_time d) = true →
  onDateInput dayjs_iso toISO today plus VNull d =
    (mkData (time d) VNull (iso_time d), [("input", [VStr ""])]).
Proof.
  intros Hcase. unfold DateField.onDateInput. simpl. f_equal.
  by apply onInput_empty.
Qed.

(** X26: a time picked in the time input is always announced: for a
    truthy value, [onTimeInput] stores it, fills in a missing date
    with the date of the present day, and emits exactly one "input"
    event, with the ISO string of the date and time parsed together,
    or the empty string when they do not parse. *)
Theorem onTimeInput_emits_once (v : value) (d : Data) :
  let filled :=
    if truthy (iso_date d) then iso_date d else toISO today (Some "date") in
  truthy v = true →
  strict_eq (toISO today (Some "date")) VNull = false →
  onTimeInput dayjs_iso toISO today plus v d =
    (mkData (time d) filled v,
     [("input",
       [coalesce (toISO_opt toISO (dayjs_iso (plus (plus filled (VStr " ")) v)) None)
                 (VStr "")])]).
Proof.
  intros filled Hv Hnow. unfold DateField.onTimeInput. rewrite Hv. simpl.
  assert (Hfilled : strict_eq filled VNull = false).
  { subst filled. destruct (truthy (iso_date d)) eqn:Ht; [|done].
    by apply truthy_not_null. }
  assert (Hdata :
    (if negb (truthy (iso_date d))
     then mkData (time d) (prop (now toISO today d) "date") (iso_time d)
     else d) = mkData (time d) filled (iso_time d)).
  { subst filled. destruct (truthy (iso_date d)); simpl; by destruct d. }
  rewrite Hdata. cbn [time iso_date iso_time]. f_equal.
  rewrite onInput_with_both; [done|done|]. by apply truthy_not_null.
Qed.

End DateFieldProperties.

(** ** The date field with a dayjs that knows one moment *)

Lemma onInput_without_date_example :
  let both_empty := DateField.mkData (VObj cls_Object ∅) VNull VNull in
  let only_time := DateField.mkData (VObj cls_Object ∅) VNull (VStr "12:30:00") in
  let date_only := DateField.mkData (VBool false) VNull VNull in
  DateField.onInput DateField.parse DateField.format DateField.concat date_only
    = [("input", [VStr ""])] ∧
  DateField.onInput DateField.parse DateField.format DateField.concat only_time
    = [("input", [VStr ""])] ∧
  DateField.onInput DateField.parse DateField.format DateField.concat both_empty
    = [].
Proof.
  intros both_empty only_time date_only.
  destruct (onInput_without_date DateField.parse DateField.format DateField.concat
              date_only eq_refl) as (Hdate & _ & _).
  destruct (onInput_without_date DateField.parse DateField.format DateField.concat
              only_time eq_refl) as (_ & Htime & _).
  destruct (onInput_without_date DateField.parse DateField.format DateField.concat
              both_empty eq_refl) as (_ & _ & Hnone).
  split; [exact (Hdate eq_refl)|].
  split; [exact (Htime eq_refl eq_refl)|exact (Hnone eq_refl eq_refl eq_refl)].
Defined.

Lemma onDateInput_emits_once_example :
  let d := DateField.mkData (VBool false) VNull VNull in
  truthy (VStr "2024-05-01") = true ∧
  DateField.onDateInput DateField.parse DateField.format DateField.moment
    DateField.concat (VStr "2024-05-01") d =
    (DateField.mkData (VBool false) (VStr "2024-05-01") (VStr "00:00:00"),
     [("input", [VStr "2024-05-01 00:00:00"])]).
Proof.
  intros d. split; [reflexivity|].
  exact (onDateInput_emits_once DateField.parse DateField.format DateField.moment
           DateField.concat (VStr "2024-05-01") d eq_refl eq_refl).
Defined.

Lemma onDateInput_clears_example :
  let d := DateField.mkData (VObj cls_Object ∅) (VStr "2024-05-01") (VStr "12:30:00") in
  truthy (DateField.iso_time d) = true ∧
  DateField.onDateInput DateField.parse DateField.format DateField.moment
    DateField.concat VNull d =
    (DateField.mkData (VObj cls_Object ∅) VNull (VStr "12:30:00"),
     [("input", [VStr ""])]).
Proof.
  intros d. split; [reflexivity|].
  exact (onDateInput_clears DateField.parse DateField.format DateField.moment
           DateField.concat d (or_intror eq_refl)).
Defined.

Lemma onTimeInput_emits_once_example :
  let d := DateField.mkData (VObj cls_Object ∅) VNull VNull in
  truthy (VStr "00:00:00") = true ∧
  DateField.onTimeInput DateField.parse DateField.format DateField.moment
    DateField.concat (VStr "00:00:00") d =
    (DateField.mkData (VObj cls_Object ∅) (VStr "2024-05-01") (VStr "00:00:00"),
     [("input", [VStr "2024-05-01 00:00:00"])]).
Proof.
  intros d. split; [reflexivity|].
  exact (onTimeInput_emits_once DateField.parse DateField.format DateField.moment
           DateField.concat (VStr "00:00:00") d eq_refl eq_refl).
Defined.
